(** * Keyword sentiment analyser and insight aggregator: a shallow embedding

    The development follows [src/models.py] and [src/main.py].

    - A Python [float] is an IEEE-754 binary64 number; it is modelled by
      Rocq's primitive [float], which is the same format with the same
      round-to-nearest-even arithmetic, so every literal and every
      operation below evaluates to the bit pattern CPython produces.
    - A Python [str] is modelled by [string].  [str.lower] is a builtin
      whose Unicode tables are not part of the repository: the analyser
      takes it as a parameter [lower]; [ascii_lower] is the instance
      used on ASCII statements, where the two coincide.
    - [random.uniform] is the only source of non-determinism; the
      generator is threaded explicitly as a state ([rng]).
    - A [dict] is a [gmap]; a [KeyError] is an explicit error result. *)

From Stdlib Require Import Floats ZArith Uint63 Ascii String List Bool Lia.
From Stdlib Require Import DecimalString.
From stdpp Require Import gmap strings fin_maps.

Set Warnings "-inexact-float".

Import ListNotations.
Local Open Scope string_scope.
Local Open Scope list_scope.
Local Open Scope nat_scope.

(** ** Python numbers *)

Module PyFloat.

(** Conversion of an [int] to a [float], as done by the mixed
    arithmetic [count * 0.1] and [total_score / len(sentiments)].
    Every count below is the length of a list, hence below [2^63],
    the range on which [of_uint63] is the correctly rounded
    conversion. *)
Definition float_of_nat (n : nat) : float :=
  PrimFloat.of_uint63 (Uint63.of_Z (Z.of_nat n)).

Definition float_of_Z (z : Z) : float :=
  PrimFloat.of_uint63 (Uint63.of_Z z).

(** [a > b] and [a < b] on floats. *)
Definition gt (a b : float) : bool := (b <? a)%float.
Definition lt (a b : float) : bool := (a <? b)%float.

(** The builtin [min(a, b)]: the first argument is kept unless the
    second is strictly smaller. *)
Definition py_min (a b : float) : float := if lt b a then b else a.

(** The builtin [max(a, b)]: the first argument is kept unless the
    second is strictly greater. *)
Definition py_max (a b : float) : float := if gt b a then b else a.

(** Closed interval membership, [lo <= x <= hi]. *)
Definition within (lo hi x : float) : bool :=
  ((lo <=? x) && (x <=? hi))%float.

(** Quotient rounded to the nearest integer, ties to the even one. *)
Definition div_round_half_even (num den : Z) : Z :=
  let q := (num / den)%Z in
  let r := (num mod den)%Z in
  match (2 * r ?= den)%Z with
  | Lt => q
  | Gt => (q + 1)%Z
  | Eq => if Z.even q then q else (q + 1)%Z
  end.

(** [m * 2^e * k] rounded to an integer, ties to even: the decimal
    digits that the correctly rounded conversion of CPython
    ([_Py_dg_dtoa], mode 3) yields for the float [m * 2^e] with
    [log10 k] digits after the point. *)
Definition scaled_round (m : positive) (e : Z) (k : Z) : Z :=
  if (0 <=? e)%Z then (Zpos m * 2 ^ e * k)%Z
  else div_round_half_even (Zpos m * k) (2 ^ (- e)).

(** The builtin [round(x, 3)].  Non-finite values and zeros are
    returned unchanged.  A finite value is converted to the decimal
    with three digits after the point nearest to its exact value
    (ties to even) and that decimal is read back as the nearest
    float.  From [2^43] on the spacing of the floats exceeds
    [0.001], so the value read back is [x] itself; below, the
    integer [n] is under [2^53] and [n / 1000] is one correctly
    rounded division. *)
Definition round3 (x : float) : float :=
  match Prim2SF x with
  | S754_finite s m e =>
      if (8796093022208 <=? abs x)%float then x
      else
        let n := scaled_round m e 1000 in
        let r := (float_of_Z n / 1000)%float in
        if s then (- r)%float else r
  | _ => x
  end.

Definition str_of_Z (z : Z) : string :=
  NilZero.string_of_uint (N.to_uint (Z.to_N z)).

Definition sign_str (s : bool) : string := if s then "-" else "".

(** The format specification [:.1%]: the value is multiplied by
    [100] (a float multiplication), printed in fixed notation with
    one digit after the point, and followed by a percent sign. *)
Definition format_percent1 (x : float) : string :=
  let v := (x * 100)%float in
  match Prim2SF v with
  | S754_nan => "nan%"
  | S754_infinity s => sign_str s ++ "inf%"
  | S754_zero s => sign_str s ++ "0.0%"
  | S754_finite s m e =>
      let n := scaled_round m e 10 in
      sign_str s ++ str_of_Z (n / 10) ++ "." ++ str_of_Z (n mod 10) ++ "%"
  end.

End PyFloat.

(** ** Python strings *)

Module PyStr.

(** [str(n)] and the replacement field [{n}] for a non-negative
    [int]. *)
Definition str_of_nat (n : nat) : string :=
  NilZero.string_of_uint (Nat.to_uint n).

(** [w in s]: [w] occurs in [s] as a contiguous substring.  The
    empty string occurs in every string. *)
Fixpoint contains (w s : string) : bool :=
  String.prefix w s ||
  match s with
  | EmptyString => false
  | String _ s' => contains w s'
  end.

Definition ascii_lower_char (c : ascii) : ascii :=
  let n := nat_of_ascii c in
  if (65 <=? n) && (n <=? 90) then ascii_of_nat (n + 32) else c.

(** [str.lower] restricted to ASCII text. *)
Fixpoint ascii_lower (s : string) : string :=
  match s with
  | EmptyString => EmptyString
  | String c s' => String (ascii_lower_char c) (ascii_lower s')
  end.

End PyStr.

Import PyFloat PyStr.

(** ** The random number generator

    [random.uniform(a, b)] belongs to the Python standard library.  The
    generator is modelled by the sequence of values its successive
    calls return, together with a cursor; a call reads the value under
    the cursor and advances it.  The documented contract of the
    library, [a <= N <= b], is the predicate [rng_within]. *)

Record rng := { draws : nat -> float; cursor : nat }.

Definition Rand (A : Type) : Type := rng -> A * rng.

Definition ret {A} (a : A) : Rand A := fun g => (a, g).

Definition bind {A B} (m : Rand A) (k : A -> Rand B) : Rand B :=
  fun g => let (a, g') := m g in k a g'.

Declare Scope rand_scope.
Delimit Scope rand_scope with rand.
Notation "x <- m ;; k" := (bind m (fun x => k))
  (at level 100, m at next level, right associativity) : rand_scope.

Definition uniform (a b : float) : Rand float :=
  fun g => (draws g (cursor g), {| draws := draws g; cursor := S (cursor g) |}).


(** ** models.py *)

Inductive SentimentType := POSITIVE | NEGATIVE | NEUTRAL.

(** The [.value] of a member of the [str] enumeration. *)
Definition value (t : SentimentType) : string :=
  match t with
  | POSITIVE => "positive"
  | NEGATIVE => "negative"
  | NEUTRAL => "neutral"
  end.

(** Iterating over the enumeration class yields its members in
    definition order. *)
Definition SentimentType_members : list SentimentType :=
  [POSITIVE; NEGATIVE; NEUTRAL].

Module AnalysisResult.
Record t := mk {
  sentiment : SentimentType;
  score : float;
  confidence : float;
  keywords_found : list string
}.
End AnalysisResult.

Module SentimentResult.
Record t := mk {
  statement : string;
  sentiment : SentimentType;
  score : float;
  confidence : float;
  keywords_found : option (list string)
}.
End SentimentResult.

Module InsightSummary.
Record t := mk {
  summary : string;
  sentiment_distribution : gmap string nat;
  average_score : float;
  total_statements : nat;
  recommendations : option (list string)
}.
End InsightSummary.

Module BulkStatementRequest.
Record t := mk {
  statements : list string;
  include_metadata : option bool
}.
End BulkStatementRequest.

Module AnalyzerConfig.
Record t := mk {
  positive_keywords : list string;
  negative_keywords : list string;
  neutral_keywords : list string;
  confidence_threshold : float;
  minimum_score : float;
  maximum_score : float
}.

(** [AnalyzerConfig()]: every field at its default. *)
Definition default : t := {|
  positive_keywords :=
    ["love"; "amazing"; "impressed"; "quality"; "great"; "excellent";
     "wonderful"; "outstanding"; "fantastic"; "awesome"; "perfect"];
  negative_keywords :=
    ["disappointing"; "not happy"; "hope they improve"; "bad"; "terrible";
     "awful"; "worst"; "hate"; "horrible"; "disappointing"];
  neutral_keywords :=
    ["neutral"; "mixed feelings"; "okay"; "average"; "uncertain"; "unsure"];
  confidence_threshold := 0.7;
  minimum_score := 0.1;
  maximum_score := 0.9
|}.
End AnalyzerConfig.

(** ** main.py: KeywordBasedSentimentAnalyzer *)

(** [l or []] on a list: an empty list is falsy. *)
Definition or_empty {A} (l : list A) : list A :=
  match l with
  | [] => []
  | _ => l
  end.

Section Analyzer.

(** [str.lower]. *)
Variable lower : string -> string.

(** The comprehension
    [[word for word in keywords if word in statement_lower]]. *)
Definition keyword_matches (keywords : list string) (statement_lower : string)
  : list string :=
  List.filter (fun word => contains word statement_lower) keywords.

Definition analyze (config : AnalyzerConfig.t) (statement : string)
  : Rand AnalysisResult.t :=
  let statement_lower := lower statement in
  let positive_matches :=
    keyword_matches (AnalyzerConfig.positive_keywords config) statement_lower in
  let negative_matches :=
    keyword_matches (AnalyzerConfig.negative_keywords config) statement_lower in
  let neutral_matches :=
    keyword_matches (AnalyzerConfig.neutral_keywords config) statement_lower in
  let positive_count := length positive_matches in
  let negative_count := length negative_matches in
  let neutral_count := length neutral_matches in
  if (negative_count <? positive_count) && (neutral_count <? positive_count) then
    ret {| AnalysisResult.sentiment := POSITIVE;
           AnalysisResult.score :=
             py_min (AnalyzerConfig.maximum_score config)
                    (0.6 + float_of_nat positive_count * 0.1)%float;
           AnalysisResult.confidence :=
             py_min 0.95 (0.5 + float_of_nat positive_count * 0.15)%float;
           AnalysisResult.keywords_found := positive_matches |}
  else if (positive_count <? negative_count) && (neutral_count <? negative_count) then
    ret {| AnalysisResult.sentiment := NEGATIVE;
           AnalysisResult.score :=
             py_max (AnalyzerConfig.minimum_score config)
                    (0.4 - float_of_nat negative_count * 0.1)%float;
           AnalysisResult.confidence :=
             py_min 0.95 (0.5 + float_of_nat negative_count * 0.15)%float;
           AnalysisResult.keywords_found := negative_matches |}
  else
    (score <- uniform 0.4 0.6 ;;
     ret {| AnalysisResult.sentiment := NEUTRAL;
            AnalysisResult.score := score;
            AnalysisResult.confidence :=
              (0.5 + float_of_nat neutral_count * 0.1)%float;
            AnalysisResult.keywords_found := or_empty neutral_matches |})%rand.

(** [[self.analyze(stmt) for stmt in statements]]. *)
Fixpoint analyze_batch (config : AnalyzerConfig.t) (statements : list string)
  : Rand (list AnalysisResult.t) :=
  match statements with
  | [] => ret []
  | stmt :: rest =>
      (r <- analyze config stmt ;;
       rs <- analyze_batch config rest ;;
       ret (r :: rs))%rand
  end.

End Analyzer.


(** ** Exceptions *)

Inductive exn :=
| KeyError (key : string)
| AttributeError (msg : string)
| HTTPException (status_code : nat) (detail : string).

Inductive result (A : Type) :=
| Ok (a : A)
| Raise (e : exn).

Arguments Ok {A} a.
Arguments Raise {A} e.

Definition result_bind {A B} (m : result A) (k : A -> result B) : result B :=
  match m with
  | Ok a => k a
  | Raise e => Raise e
  end.

Declare Scope result_scope.
Delimit Scope result_scope with result.
Notation "x <- m ;; k" := (result_bind m (fun x => k))
  (at level 100, m at next level, right associativity) : result_scope.

(** [str(e)]. *)
Definition str_exn (e : exn) : string :=
  match e with
  | KeyError key => "'" ++ key ++ "'"
  | AttributeError msg => msg
  | HTTPException status_code detail => str_of_nat status_code ++ ": " ++ detail
  end.

(** ** Dictionaries with [str] keys and [int] values *)

(** [d[key]]. *)
Definition dict_get (d : gmap string nat) (key : string) : result nat :=
  match d !! key with
  | Some v => Ok v
  | None => Raise (KeyError key)
  end.

(** [d[key] += 1]: the item is read, then stored. *)
Definition dict_incr (d : gmap string nat) (key : string)
  : result (gmap string nat) :=
  (v <- dict_get d key ;; Ok (<[key := v + 1]> d))%result.

(** [sum(d.values())]. *)
Definition dict_values_sum (d : gmap string nat) : nat :=
  map_fold (fun _ v acc => acc + v) 0 d.

(** ** main.py: AdvancedInsightGenerator *)

(** The comparisons [pos > total * 0.6] and [neu > total * 0.4] set an
    [int] against a [float]; Python compares the exact values, which
    is the comparison of the converted count for every count below
    [2^53].  Each [recommendations.append] is written as the
    concatenation of a one-element list. *)
Definition _generate_recommendations
  (pos neg neu total : nat) (avg_score confidence : float) : list string :=
  let recommendations := [] in
  let recommendations :=
    if pos <? neg then
      recommendations
        ++ ["Address negative feedback urgently to prevent reputation damage"]
        ++ ["Implement customer satisfaction improvement initiatives"]
    else recommendations in
  let recommendations :=
    if gt (float_of_nat pos) (float_of_nat total * 0.6)%float then
      recommendations
        ++ ["Leverage positive sentiment for marketing campaigns"]
        ++ ["Identify and amplify positive influencer voices"]
    else recommendations in
  let recommendations :=
    if gt (float_of_nat neu) (float_of_nat total * 0.4)%float then
      recommendations
        ++ ["Engage neutral influencers with targeted content"]
        ++ ["Provide more compelling value propositions"]
    else recommendations in
  let recommendations :=
    if lt avg_score 0.4 then
      recommendations
        ++ ["Critical: Overall sentiment is very low - immediate action required"]
    else if gt avg_score 0.7 then
      recommendations
        ++ ["Excellent: Maintain current strategies and expand successful initiatives"]
    else recommendations in
  let recommendations :=
    if lt confidence 0.5 then
      recommendations
        ++ ["Consider gathering more data for better analysis confidence"]
    else recommendations in
  recommendations.

(** The variables updated by the loop of [generate].  [total_score]
    starts as the [int] [0]; the first addition converts it to [0.0],
    and the loop runs at least once, so it is a float throughout. *)
Record totals := {
  distribution : gmap string nat;
  total_score : float;
  high_confidence_count : nat
}.

Definition generate_step (st : totals) (r : SentimentResult.t) : result totals :=
  (d <- dict_incr (distribution st) (value (SentimentResult.sentiment r)) ;;
   Ok {| distribution := d;
         total_score := (total_score st + SentimentResult.score r)%float;
         high_confidence_count :=
           if gt (SentimentResult.confidence r) 0.7
           then high_confidence_count st + 1
           else high_confidence_count st |})%result.

Fixpoint generate_loop (sentiments : list SentimentResult.t) (st : totals)
  : result totals :=
  match sentiments with
  | [] => Ok st
  | r :: rest => (st' <- generate_step st r ;; generate_loop rest st')%result
  end.

(** [{sentiment_type.value: 0 for sentiment_type in SentimentType}]. *)
Definition initial_distribution : gmap string nat :=
  fold_left (fun d sentiment_type => <[value sentiment_type := 0]> d)
            SentimentType_members ∅.

(** The f-strings of the summary.  [pos/total] is the true division
    of two [int]s, the correctly rounded quotient; for counts below
    [2^53] it is the quotient of the converted counts. *)
Definition positive_summary (pos total : nat) : string :=
  "Overwhelmingly positive sentiment detected (" ++ str_of_nat pos ++ "/"
    ++ str_of_nat total ++ ", "
    ++ format_percent1 (float_of_nat pos / float_of_nat total)%float
    ++ "). Influencers are expressing high satisfaction and enthusiasm.".

Definition negative_summary (neg total : nat) : string :=
  "Concerning negative sentiment trend (" ++ str_of_nat neg ++ "/"
    ++ str_of_nat total ++ ", "
    ++ format_percent1 (float_of_nat neg / float_of_nat total)%float
    ++ "). Significant issues require immediate attention.".

Definition neutral_summary (neu total : nat) : string :=
  "Neutral sentiment dominates (" ++ str_of_nat neu ++ "/"
    ++ str_of_nat total ++ ", "
    ++ format_percent1 (float_of_nat neu / float_of_nat total)%float
    ++ "). Influencers are taking a wait-and-see approach.".

Definition mixed_summary : string :=
  "Mixed sentiments observed. Opinions are evenly divided among influencers with no clear majority.".

Definition confidence_clause (confidence_ratio : float) : string :=
  " Analysis confidence: " ++ format_percent1 confidence_ratio
    ++ " of statements analyzed with high confidence.".

Definition generate (sentiments : list SentimentResult.t)
  : result InsightSummary.t :=
  match sentiments with
  | [] =>
      Ok {| InsightSummary.summary := "No statements to analyze.";
            InsightSummary.sentiment_distribution := ∅;
            InsightSummary.average_score := 0.0;
            InsightSummary.total_statements := 0;
            InsightSummary.recommendations := Some [] |}
  | _ :: _ =>
      (st <- generate_loop sentiments
               {| distribution := initial_distribution;
                  total_score := 0;
                  high_confidence_count := 0 |} ;;
       let average_score :=
         (total_score st / float_of_nat (length sentiments))%float in
       let total := length sentiments in
       let confidence_ratio :=
         (float_of_nat (high_confidence_count st) / float_of_nat total)%float in
       pos <- dict_get (distribution st) (value POSITIVE) ;;
       neg <- dict_get (distribution st) (value NEGATIVE) ;;
       neu <- dict_get (distribution st) (value NEUTRAL) ;;
       let summary :=
         if (neg <? pos) && (neu <? pos) then positive_summary pos total
         else if (pos <? neg) && (neu <? neg) then negative_summary neg total
         else if (pos <? neu) && (neg <? neu) then neutral_summary neu total
         else mixed_summary in
       let summary := (summary ++ confidence_clause confidence_ratio)%string in
       let recommendations :=
         _generate_recommendations pos neg neu total average_score
                                   confidence_ratio in
       Ok {| InsightSummary.summary := summary;
             InsightSummary.sentiment_distribution := distribution st;
             InsightSummary.average_score := round3 average_score;
             InsightSummary.total_statements := total;
             InsightSummary.recommendations := Some recommendations |})%result
  end.

(** ** main.py: SentimentAnalysisService and the endpoints *)

Module SentimentAnalysisService.
Record t := mk { config : AnalyzerConfig.t }.
End SentimentAnalysisService.

(** [sentiment_service = SentimentAnalysisService()]. *)
Definition sentiment_service : SentimentAnalysisService.t :=
  {| SentimentAnalysisService.config := AnalyzerConfig.default |}.

(** [if x:] on an [Optional[bool]]: [None] is falsy. *)
Definition truthy (x : option bool) : bool :=
  match x with
  | Some b => b
  | None => false
  end.

Section Service.

Variable lower : string -> string.

(** The body of the [try] block calls [analyze], the constructor of
    [SentimentResult] and [list.append], none of which raises here, so
    the [except] clause is never entered. *)
Fixpoint analyze_statements (self : SentimentAnalysisService.t)
  (statements : list string) : Rand (list SentimentResult.t) :=
  match statements with
  | [] => ret []
  | stmt :: rest =>
      (analysis <- analyze lower (SentimentAnalysisService.config self) stmt ;;
       let result :=
         {| SentimentResult.statement := stmt;
            SentimentResult.sentiment := AnalysisResult.sentiment analysis;
            SentimentResult.score := AnalysisResult.score analysis;
            SentimentResult.confidence := AnalysisResult.confidence analysis;
            SentimentResult.keywords_found :=
              Some (AnalysisResult.keywords_found analysis) |} in
       results <- analyze_statements self rest ;;
       ret (result :: results))%rand
  end.

(** Any exception of the [try] block is turned into a 500 response. *)
Definition generate_insights (self : SentimentAnalysisService.t)
  (statements : list string) : Rand (result InsightSummary.t) :=
  (sentiments <- analyze_statements self statements ;;
   ret match generate sentiments with
       | Ok insights => Ok insights
       | Raise e =>
           Raise (HTTPException 500 ("Error generating insights: " ++ str_exn e))
       end)%rand.

(** [sum(1 for s in sentiments if s.confidence > 0.7)]. *)
Definition high_conf_count (sentiments : list SentimentResult.t) : nat :=
  list_sum
    (map (fun _ => 1)
         (List.filter (fun s => gt (SentimentResult.confidence s) 0.7)
                      sentiments)).

Definition metadata_recommendation (sentiments : list SentimentResult.t)
  : string :=
  "Processing metadata: " ++ str_of_nat (high_conf_count sentiments) ++ "/"
    ++ str_of_nat (length sentiments) ++ " high-confidence results".

(** [insights.recommendations.append(x)]; [None] has no [append]. *)
Definition append_recommendation (insights : InsightSummary.t) (x : string)
  : result InsightSummary.t :=
  match InsightSummary.recommendations insights with
  | Some recommendations =>
      Ok {| InsightSummary.summary := InsightSummary.summary insights;
            InsightSummary.sentiment_distribution :=
              InsightSummary.sentiment_distribution insights;
            InsightSummary.average_score := InsightSummary.average_score insights;
            InsightSummary.total_statements :=
              InsightSummary.total_statements insights;
            InsightSummary.recommendations := Some (recommendations ++ [x]) |}
  | None =>
      Raise (AttributeError "'NoneType' object has no attribute 'append'")
  end.

(** [POST /bulk-analysis]. *)
Definition bulk_analysis (request : BulkStatementRequest.t)
  : Rand (result InsightSummary.t) :=
  match BulkStatementRequest.statements request with
  | [] => ret (Raise (HTTPException 400 "No statements provided"))
  | _ :: _ =>
      (r <- generate_insights sentiment_service
                              (BulkStatementRequest.statements request) ;;
       match r with
       | Raise e => ret (Raise e)
       | Ok insights =>
           if truthy (BulkStatementRequest.include_metadata request) then
             (sentiments <- analyze_statements sentiment_service
                              (BulkStatementRequest.statements request) ;;
              ret (append_recommendation insights
                     (metadata_recommendation sentiments)))
           else ret (Ok insights)
       end)%rand
  end.

End Service.

(** ** Quantities the statements below are phrased with *)

(** A generator whose every call returns [0.5]. *)
Definition constant_rng : rng := {| draws := fun _ => 0.5%float; cursor := 0 |}.

Definition SentimentType_eqb (a b : SentimentType) : bool :=
  match a, b with
  | POSITIVE, POSITIVE | NEGATIVE, NEGATIVE | NEUTRAL, NEUTRAL => true
  | _, _ => false
  end.

(** Number of results carrying a given label. *)
Definition count_label (t : SentimentType) (rs : list SentimentResult.t) : nat :=
  length (List.filter (fun r => SentimentType_eqb (SentimentResult.sentiment r) t) rs).

(** Number of results whose confidence exceeds [0.7]. *)
Definition confident_count (rs : list SentimentResult.t) : nat :=
  length (List.filter (fun r => gt (SentimentResult.confidence r) 0.7) rs).

(** The arithmetic mean of a list of floats: their sum, accumulated
    from left to right, divided by their number. *)
Definition arithmetic_mean (xs : list float) : float :=
  (fold_left PrimFloat.add xs 0 / float_of_nat (length xs))%float.

(** The dictionary holding exactly the three labels. *)
Definition distribution_of (pos neg neu : nat) : gmap string nat :=
  <["neutral" := neu]> (<["negative" := neg]> (<["positive" := pos]> ∅)).


(** The statements used as running examples. *)
Definition all_neutral_statement : string :=
  "neutral mixed feelings okay average uncertain unsure".

Definition disappointing_statement : string :=
  "The recent update was disappointing and didn't meet expectations.".

Definition love_statement : string :=
  "I love the new product launch! It's amazing".

(** A result with the given label, score and confidence. *)
Definition sample (t : SentimentType) (score confidence : float)
  : SentimentResult.t :=
  {| SentimentResult.statement := "";
     SentimentResult.sentiment := t;
     SentimentResult.score := score;
     SentimentResult.confidence := confidence;
     SentimentResult.keywords_found := None |}.

(** Three positive and two negative results. *)
Definition three_two_batch : list SentimentResult.t :=
  [sample POSITIVE 0.8 0.8; sample POSITIVE 0.8 0.8; sample POSITIVE 0.7 0.65;
   sample NEGATIVE 0.2 0.8; sample NEGATIVE 0.2 0.8].

(** One negative and one neutral result whose mean score, [0.3996],
    is below [0.4] and rounds to [0.4]. *)
Definition rounding_gap_batch : list SentimentResult.t :=
  [sample NEGATIVE 0.30000000000000004 0.65; sample NEUTRAL 0.4992 0.5].

(** The five fallback statements of [JsonDataRepository]. *)
Definition fallback_statements : list string :=
  ["I love the new product launch! It's amazing and everyone should try it.";
   "The recent update was disappointing and didn't meet expectations.";
   "I'm neutral about the changes, let's see how it goes.";
   "This brand always delivers quality, I'm impressed again.";
   "Not happy with the service lately, hope they improve soon."].

(** ** main.py: the remaining endpoints *)

Module StatementRequest.
Record t := mk { statements : list string }.
End StatementRequest.

Section Endpoints.

Variable lower : string -> string.

(** [POST /sentiment]. *)
Definition sentiment_analysis (request : StatementRequest.t)
  : Rand (result (list SentimentResult.t)) :=
  match StatementRequest.statements request with
  | [] => ret (Raise (HTTPException 400 "No statements provided"))
  | _ :: _ =>
      (results <- analyze_statements lower sentiment_service
                    (StatementRequest.statements request) ;;
       ret (Ok results))%rand
  end.

(** [POST /insight]. *)
Definition insight_summary (request : StatementRequest.t)
  : Rand (result InsightSummary.t) :=
  match StatementRequest.statements request with
  | [] => ret (Raise (HTTPException 400 "No statements provided"))
  | _ :: _ =>
      generate_insights lower sentiment_service
                        (StatementRequest.statements request)
  end.

End Endpoints.

(** ** main.py: JsonDataRepository.load_statements

    What [json.load] returns is modelled by [json]; an object is the
    list of its members in order, with distinct keys.  The state of the data file is
    [data_file]: absent, present but failing in [open] or [json.load],
    or parsed.  Every exception raised inside the [try] block is
    handled by the same [except Exception] clause, so a raising
    operation is an [option] that is [None]. *)

#[local] Set Warnings "-register-all".
Inductive json :=
| JNull
| JBool (b : bool)
| JInt (z : Z)
| JFloat (x : float)
| JStr (s : string)
| JList (items : list json)
| JDict (members : list (string * json)).

Inductive data_file :=
| FileMissing
| FileUnreadable
| FileParsed (data : json).

(** Lookup of a key among the members of an object. *)
Fixpoint members_get (members : list (string * json)) (key : string) : option json :=
  match members with
  | [] => None
  | (k, v) :: rest => if String.eqb k key then Some v else members_get rest key
  end.

(** [data.get(key, default)]: only a [dict] has [get]. *)
Definition json_get (data : json) (key : string) (default : json) : option json :=
  match data with
  | JDict members =>
      Some match members_get members key with
           | Some v => v
           | None => default
           end
  | _ => None
  end.

(** The items a [for] clause visits: the elements of a list, the keys
    of a dict, the characters of a string; anything else is not
    iterable. *)
Definition json_iter (x : json) : option (list json) :=
  match x with
  | JList items => Some items
  | JDict members => Some (map (fun kv => JStr (fst kv)) members)
  | JStr s => Some (map (fun c => JStr (String c EmptyString)) (list_ascii_of_string s))
  | _ => None
  end.

(** [item[key]] with a [str] key: defined on a dict that has the key. *)
Definition json_subscript (item : json) (key : string) : option json :=
  match item with
  | JDict members => members_get members key
  | _ => None
  end.

(** [[item['statement'] for item in items]]: the first failing item
    aborts the comprehension. *)
Fixpoint collect_statements (items : list json) : option (list json) :=
  match items with
  | [] => Some []
  | item :: rest =>
      match json_subscript item "statement" with
      | Some v =>
          match collect_statements rest with
          | Some vs => Some (v :: vs)
          | None => None
          end
      | None => None
      end
  end.

(** [_get_fallback_statements]. *)
Definition _get_fallback_statements : list json := map JStr fallback_statements.

Definition load_statements (file : data_file) : list json :=
  match file with
  | FileMissing => _get_fallback_statements
  | FileUnreadable => _get_fallback_statements
  | FileParsed data =>
      match json_get data "influencer_statements" (JList []) with
      | Some x =>
          match json_iter x with
          | Some items =>
              match collect_statements items with
              | Some statements => statements
              | None => _get_fallback_statements
              end
          | None => _get_fallback_statements
          end
      | None => _get_fallback_statements
      end
  end.

(** ** Further quantities used in statements *)

(** [w] occurs in [s] as a contiguous substring. *)
Definition occurs_in (w s : string) : Prop :=
  exists pre post, s = (pre ++ w ++ post)%string.

(** The keyword list of the configuration that belongs to a label. *)
Definition keywords_of (config : AnalyzerConfig.t) (t : SentimentType) : list string :=
  match t with
  | POSITIVE => AnalyzerConfig.positive_keywords config
  | NEGATIVE => AnalyzerConfig.negative_keywords config
  | NEUTRAL => AnalyzerConfig.neutral_keywords config
  end.

(** The part of a [SentimentResult] that comes from the analyser. *)
Definition analysis_of (r : SentimentResult.t) : AnalysisResult.t :=
  {| AnalysisResult.sentiment := SentimentResult.sentiment r;
     AnalysisResult.score := SentimentResult.score r;
     AnalysisResult.confidence := SentimentResult.confidence r;
     AnalysisResult.keywords_found :=
       match SentimentResult.keywords_found r with
       | Some ks => ks
       | None => []
       end |}.

(** A well-formed record of the data file. *)
Definition statement_record (id : Z) (influencer statement category timestamp : string)
  : json :=
  JDict [("id", JInt id); ("influencer", JStr influencer);
         ("statement", JStr statement); ("category", JStr category);
         ("timestamp", JStr timestamp)].

(** Two negative and one positive result with the scores the default
    configuration gives for three or more, two, and three or more
    keywords; and the same results in another order. *)
Definition order_batch : list SentimentResult.t :=
  [sample NEGATIVE 0.1 0.95; sample NEGATIVE 0.2 0.8; sample POSITIVE 0.9 0.95].

Definition reordered_batch : list SentimentResult.t :=
  [sample NEGATIVE 0.1 0.95; sample POSITIVE 0.9 0.95; sample NEGATIVE 0.2 0.8].

(** * Properties *)

(** ** The order on floats *)





Lemma ltb_leb (a b : float) :
  (a <? b)%float = true -> (a <=? b)%float = true.
Proof.
  rewrite FloatAxioms.ltb_spec, FloatAxioms.leb_spec. unfold SFltb, SFleb.
  destruct (SFcompare _ _) as [[| |]|]; congruence.
Qed.

(** ** The analyser *)

Section AnalyzerFacts.

Variable lower : string -> string.

Lemma keyword_matches_length keywords s :
  length (keyword_matches keywords s) <= length keywords.
Proof.
  unfold keyword_matches. induction keywords as [|k ks IH]; simpl.
  - lia.
  - destruct (contains k s); simpl; lia.
Qed.

Lemma or_empty_id {A} (l : list A) : or_empty l = l.
Proof. destruct l; reflexivity. Qed.

(** C1: [analyze] classifies by strict majority in both comparisons.
    With [p], [n], [u] the numbers of positive, negative and neutral
    keywords found in the lower-cased statement: when [p > n] and
    [p > u] the result is POSITIVE with score
    [min(maximum_score, 0.6 + p * 0.1)], confidence
    [min(0.95, 0.5 + p * 0.15)] and the positive matches; otherwise
    when [n > p] and [n > u] it is NEGATIVE with score
    [max(minimum_score, 0.4 - n * 0.1)], confidence
    [min(0.95, 0.5 + n * 0.15)] and the negative matches; in every
    other case (all ties, no match at all) it is NEUTRAL with
    confidence [0.5 + u * 0.1] and the neutral matches. *)
Theorem analyze_strict_majority (config : AnalyzerConfig.t) (statement : string) (g : rng) :
  let positive_matches :=
    keyword_matches (AnalyzerConfig.positive_keywords config) (lower statement) in
  let negative_matches :=
    keyword_matches (AnalyzerConfig.negative_keywords config) (lower statement) in
  let neutral_matches :=
    keyword_matches (AnalyzerConfig.neutral_keywords config) (lower statement) in
  let p := length positive_matches in
  let n := length negative_matches in
  let u := length neutral_matches in
  let r := fst (analyze lower config statement g) in
  (p > n /\ p > u ->
     r = {| AnalysisResult.sentiment := POSITIVE;
            AnalysisResult.score :=
              py_min (AnalyzerConfig.maximum_score config) (0.6 + float_of_nat p * 0.1)%float;
            AnalysisResult.confidence := py_min 0.95 (0.5 + float_of_nat p * 0.15)%float;
            AnalysisResult.keywords_found := positive_matches |})
  /\ (n > p /\ n > u ->
     r = {| AnalysisResult.sentiment := NEGATIVE;
            AnalysisResult.score :=
              py_max (AnalyzerConfig.minimum_score config) (0.4 - float_of_nat n * 0.1)%float;
            AnalysisResult.confidence := py_min 0.95 (0.5 + float_of_nat n * 0.15)%float;
            AnalysisResult.keywords_found := negative_matches |})
  /\ (~ (p > n /\ p > u) -> ~ (n > p /\ n > u) ->
     AnalysisResult.sentiment r = NEUTRAL
     /\ AnalysisResult.confidence r = (0.5 + float_of_nat u * 0.1)%float
     /\ AnalysisResult.keywords_found r = neutral_matches).
Proof.
  intros pm nm um p n u r. subst r. unfold analyze.
  fold pm nm um. fold p n u.
  destruct (Nat.ltb_spec n p) as [Hnp|Hnp]; destruct (Nat.ltb_spec u p) as [Hup|Hup];
    destruct (Nat.ltb_spec p n) as [Hpn|Hpn]; destruct (Nat.ltb_spec u n) as [Hun|Hun];
    simpl; repeat split; intros; try rewrite or_empty_id; try reflexivity;
    try lia; exfalso; lia.
Qed.

(** *** The default configuration *)

Lemma default_positive_bound s :
  length (keyword_matches (AnalyzerConfig.positive_keywords AnalyzerConfig.default) s) <= 11.
Proof. apply (keyword_matches_length (AnalyzerConfig.positive_keywords AnalyzerConfig.default)). Qed.

Lemma default_negative_bound s :
  length (keyword_matches (AnalyzerConfig.negative_keywords AnalyzerConfig.default) s) <= 10.
Proof. apply (keyword_matches_length (AnalyzerConfig.negative_keywords AnalyzerConfig.default)). Qed.








Lemma count_occ_filter (f : string -> bool) (l : list string) (x : string) :
  count_occ String.string_dec (List.filter f l) x
  = if f x then count_occ String.string_dec l x else 0.
Proof.
  induction l as [|y l IH]; simpl.
  - destruct (f x); reflexivity.
  - destruct (f y) eqn:Hy; simpl.
    + destruct (String.string_dec y x) as [->|Hne].
      * rewrite Hy in *. rewrite IH. reflexivity.
      * exact IH.
    + destruct (String.string_dec y x) as [->|Hne].
      * rewrite Hy in *. exact IH.
      * exact IH.
Qed.

(** A NEGATIVE result reports the negative matches. *)
Lemma analyze_negative_keywords (config : AnalyzerConfig.t) (statement : string) (g : rng) :
  let r := fst (analyze lower config statement g) in
  AnalysisResult.sentiment r = NEGATIVE ->
  AnalysisResult.keywords_found r
  = keyword_matches (AnalyzerConfig.negative_keywords config) (lower statement).
Proof.
  intros r. subst r. unfold analyze.
  destruct (_ && _); simpl; [discriminate|].
  destruct (_ && _); simpl; [reflexivity|discriminate].
Qed.

(** The POSITIVE and NEGATIVE branches cap the confidence at [0.95],
    whatever the configuration. *)
Lemma analyze_capped_confidence (config : AnalyzerConfig.t) (statement : string) (g : rng) :
  let r := fst (analyze lower config statement g) in
  AnalysisResult.sentiment r <> NEUTRAL ->
  (AnalysisResult.confidence r <=? 0.95)%float = true.
Proof.
  assert (Hcap : forall x, (py_min 0.95 x <=? 0.95)%float = true).
  { intros x. unfold py_min, lt. destruct (x <? 0.95)%float eqn:E.
    - apply ltb_leb, E.
    - vm_compute. reflexivity. }
  intros r. subst r. unfold analyze.
  destruct (_ && _); simpl; [intros _; apply Hcap|].
  destruct (_ && _); simpl; [intros _; apply Hcap|congruence].
Qed.

(** C9: the default negative keyword list holds ["disappointing"]
    twice.  Hence, for every statement whose lower-cased text contains
    that word, the negative matches hold it twice (it accounts for two
    negative matches), a NEGATIVE result lists it twice in
    [keywords_found], and a statement matching that keyword only is
    NEGATIVE with score [0.2] and confidence [0.8]. *)
Theorem disappointing_counted_twice (statement : string) (g : rng) :
  contains "disappointing" (lower statement) = true ->
  let positive_matches :=
    keyword_matches (AnalyzerConfig.positive_keywords AnalyzerConfig.default) (lower statement) in
  let negative_matches :=
    keyword_matches (AnalyzerConfig.negative_keywords AnalyzerConfig.default) (lower statement) in
  let neutral_matches :=
    keyword_matches (AnalyzerConfig.neutral_keywords AnalyzerConfig.default) (lower statement) in
  let r := fst (analyze lower AnalyzerConfig.default statement g) in
  count_occ String.string_dec
            (AnalyzerConfig.negative_keywords AnalyzerConfig.default) "disappointing" = 2
  /\ count_occ String.string_dec negative_matches "disappointing" = 2
  /\ 2 <= length negative_matches
  /\ (AnalysisResult.sentiment r = NEGATIVE ->
      count_occ String.string_dec (AnalysisResult.keywords_found r) "disappointing" = 2)
  /\ (positive_matches = [] -> neutral_matches = [] ->
      negative_matches = ["disappointing"; "disappointing"] ->
      r = {| AnalysisResult.sentiment := NEGATIVE;
             AnalysisResult.score := 0.2;
             AnalysisResult.confidence := 0.8;
             AnalysisResult.keywords_found := ["disappointing"; "disappointing"] |}).
Proof.
  intros Hc pm nm um r.
  assert (Hnm : count_occ String.string_dec nm "disappointing" = 2).
  { subst nm. unfold keyword_matches. rewrite count_occ_filter, Hc. reflexivity. }
  split; [reflexivity|]. split; [exact Hnm|]. split.
  { rewrite <- Hnm. apply count_occ_bound. }
  split.
  - intros Hs. subst r. rewrite analyze_negative_keywords by exact Hs. exact Hnm.
  - intros Hp Hu Hn. subst r. unfold analyze.
    fold pm nm um. rewrite Hp, Hu, Hn. vm_compute. reflexivity.
Qed.


End AnalyzerFacts.

(** *** Evaluations on concrete statements *)


Lemma analyze_strict_majority_witness :
  fst (analyze ascii_lower AnalyzerConfig.default love_statement constant_rng)
  = {| AnalysisResult.sentiment := POSITIVE;
       AnalysisResult.score := 0.8;
       AnalysisResult.confidence := 0.8;
       AnalysisResult.keywords_found := ["love"; "amazing"] |}.
Proof.
  destruct (analyze_strict_majority ascii_lower AnalyzerConfig.default
              love_statement constant_rng) as [H _].
  rewrite H; [vm_compute; reflexivity | vm_compute; lia].
Defined.

(** C2: the confidence returned by [analyze] is not confined to
    [[0, 1]].  The POSITIVE and NEGATIVE branches cap it at [0.95];
    the NEUTRAL branch returns [0.5 + u * 0.1] uncapped.  On a
    statement that contains the six default neutral keywords the
    result is NEUTRAL with confidence [1.1]. *)
Theorem neutral_confidence_exceeds_one :
  let r := fst (analyze ascii_lower AnalyzerConfig.default
                        all_neutral_statement constant_rng) in
  AnalysisResult.sentiment r = NEUTRAL
  /\ length (AnalysisResult.keywords_found r) = 6
  /\ AnalysisResult.confidence r = 1.1%float
  /\ within 0 1 (AnalysisResult.confidence r) = false.
Proof. vm_compute. repeat split; reflexivity. Qed.


Lemma disappointing_counted_twice_witness :
  fst (analyze ascii_lower AnalyzerConfig.default disappointing_statement constant_rng)
  = {| AnalysisResult.sentiment := NEGATIVE;
       AnalysisResult.score := 0.2;
       AnalysisResult.confidence := 0.8;
       AnalysisResult.keywords_found := ["disappointing"; "disappointing"] |}.
Proof.
  assert (Hc : contains "disappointing" (ascii_lower disappointing_statement) = true)
    by (vm_compute; reflexivity).
  destruct (disappointing_counted_twice ascii_lower disappointing_statement
              constant_rng Hc) as (_ & _ & _ & _ & H).
  apply H; vm_compute; reflexivity.
Defined.



(** ** The aggregator *)

(** *** The distribution dictionary *)

Lemma initial_distribution_eq : initial_distribution = distribution_of 0 0 0.
Proof. reflexivity. Qed.

Lemma dict_get_distribution (pos neg neu : nat) (t : SentimentType) :
  dict_get (distribution_of pos neg neu) (value t)
  = Ok match t with POSITIVE => pos | NEGATIVE => neg | NEUTRAL => neu end.
Proof.
  unfold dict_get, distribution_of. destruct t; simpl; by simplify_map_eq.
Qed.

Lemma dict_incr_distribution (pos neg neu : nat) (t : SentimentType) :
  dict_incr (distribution_of pos neg neu) (value t)
  = Ok match t with
       | POSITIVE => distribution_of (pos + 1) neg neu
       | NEGATIVE => distribution_of pos (neg + 1) neu
       | NEUTRAL => distribution_of pos neg (neu + 1)
       end.
Proof.
  unfold dict_incr. rewrite dict_get_distribution. simpl. f_equal.
  unfold distribution_of.
  destruct t; simpl; apply map_eq; intros k; rewrite !lookup_insert;
    repeat case_decide; congruence.
Qed.

Lemma dict_values_sum_distribution (pos neg neu : nat) :
  dict_values_sum (distribution_of pos neg neu) = pos + neg + neu.
Proof.
  unfold dict_values_sum, distribution_of.
  rewrite map_fold_insert_L; [|intros; lia|by simplify_map_eq].
  rewrite map_fold_insert_L; [|intros; lia|by simplify_map_eq].
  rewrite map_fold_insert_L; [|intros; lia|by simplify_map_eq].
  rewrite map_fold_empty. lia.
Qed.

Lemma dict_values_sum_empty : dict_values_sum ∅ = 0.
Proof. apply map_fold_empty. Qed.

(** *** The loop of [generate] *)

Lemma count_label_cons (t : SentimentType) (r : SentimentResult.t) rs :
  count_label t (r :: rs)
  = (if SentimentType_eqb (SentimentResult.sentiment r) t then 1 else 0)
    + count_label t rs.
Proof.
  unfold count_label. simpl.
  destruct (SentimentType_eqb _ _); reflexivity.
Qed.

Lemma confident_count_cons (r : SentimentResult.t) rs :
  confident_count (r :: rs)
  = (if gt (SentimentResult.confidence r) 0.7 then 1 else 0) + confident_count rs.
Proof.
  unfold confident_count. simpl.
  destruct (gt _ _); reflexivity.
Qed.

Lemma count_label_total (rs : list SentimentResult.t) :
  count_label POSITIVE rs + count_label NEGATIVE rs + count_label NEUTRAL rs
  = length rs.
Proof.
  induction rs as [|r rs IH]; [reflexivity|].
  rewrite !count_label_cons. simpl length.
  destruct (SentimentResult.sentiment r); simpl; lia.
Qed.

(** The loop never raises and leaves the per-label counts, the
    left-to-right sum of the scores and the high-confidence count. *)
Lemma generate_loop_spec (rs : list SentimentResult.t) :
  forall pos neg neu ts hc,
    generate_loop rs {| distribution := distribution_of pos neg neu;
                        total_score := ts;
                        high_confidence_count := hc |}
    = Ok {| distribution :=
              distribution_of (pos + count_label POSITIVE rs)
                              (neg + count_label NEGATIVE rs)
                              (neu + count_label NEUTRAL rs);
            total_score := fold_left PrimFloat.add (map SentimentResult.score rs) ts;
            high_confidence_count := hc + confident_count rs |}.
Proof.
  induction rs as [|r rs IH]; intros pos neg neu ts hc.
  - simpl. unfold count_label, confident_count. simpl.
    rewrite !Nat.add_0_r. reflexivity.
  - simpl generate_loop. unfold generate_step. simpl distribution.
    rewrite dict_incr_distribution. simpl result_bind.
    rewrite !count_label_cons, confident_count_cons.
    destruct (SentimentResult.sentiment r); simpl total_score; simpl high_confidence_count;
      rewrite IH; simpl map; simpl fold_left;
      destruct (gt (SentimentResult.confidence r) 0.7); simpl;
      rewrite <- ?Nat.add_assoc; reflexivity.
Qed.

(** [generate] in closed form on a non-empty list. *)
Lemma generate_nonempty (rs : list SentimentResult.t) :
  rs <> [] ->
  let pos := count_label POSITIVE rs in
  let neg := count_label NEGATIVE rs in
  let neu := count_label NEUTRAL rs in
  let total := length rs in
  let mean := arithmetic_mean (map SentimentResult.score rs) in
  let ratio := (float_of_nat (confident_count rs) / float_of_nat total)%float in
  generate rs
  = Ok {| InsightSummary.summary :=
            String.append
              (if (neg <? pos) && (neu <? pos) then positive_summary pos total
               else if (pos <? neg) && (neu <? neg) then negative_summary neg total
               else if (pos <? neu) && (neg <? neu) then neutral_summary neu total
               else mixed_summary)
              (confidence_clause ratio);
          InsightSummary.sentiment_distribution := distribution_of pos neg neu;
          InsightSummary.average_score := round3 mean;
          InsightSummary.total_statements := total;
          InsightSummary.recommendations :=
            Some (_generate_recommendations pos neg neu total mean ratio) |}.
Proof.
  intros Hne pos neg neu total mean ratio.
  destruct rs as [|r0 rs0]; [congruence|].
  unfold generate. cbv beta iota.
  rewrite initial_distribution_eq, generate_loop_spec.
  unfold result_bind at 1.
  cbv beta iota delta [distribution total_score high_confidence_count].
  rewrite !dict_get_distribution. unfold result_bind.
  subst mean. unfold arithmetic_mean. rewrite length_map.
  reflexivity.
Qed.

(** [generate] never raises. *)
Lemma generate_total (rs : list SentimentResult.t) :
  exists insights recommendations,
    generate rs = Ok insights
    /\ InsightSummary.recommendations insights = Some recommendations
    /\ InsightSummary.total_statements insights = length rs.
Proof.
  destruct rs as [|r rs].
  - eexists _, _. simpl. repeat split.
  - eexists _, _. rewrite generate_nonempty by discriminate. repeat split.
Qed.

(** C3: for every list of results, the empty one included, the values
    of the returned [sentiment_distribution] sum to the returned
    [total_statements]. *)
Theorem distribution_sums_to_total (rs : list SentimentResult.t) :
  exists insights,
    generate rs = Ok insights
    /\ dict_values_sum (InsightSummary.sentiment_distribution insights)
       = InsightSummary.total_statements insights.
Proof.
  destruct rs as [|r rs].
  - eexists. split; [reflexivity|]. simpl. apply dict_values_sum_empty.
  - eexists. split; [apply generate_nonempty; discriminate|].
    simpl InsightSummary.sentiment_distribution.
    simpl InsightSummary.total_statements.
    rewrite dict_values_sum_distribution. apply count_label_total.
Qed.

(** C4: for the empty list [average_score] is [0.0]; for a non-empty
    list it is the arithmetic mean of the individual scores (their
    left-to-right sum divided by their number) rounded to three
    decimal places by [round(_, 3)]. *)
Theorem average_score_is_rounded_mean (rs : list SentimentResult.t) :
  exists insights,
    generate rs = Ok insights
    /\ (rs = [] -> InsightSummary.average_score insights = 0%float)
    /\ (rs <> [] ->
        InsightSummary.average_score insights
        = round3 (arithmetic_mean (map SentimentResult.score rs))).
Proof.
  destruct rs as [|r rs].
  - eexists. split; [reflexivity|]. split; [reflexivity|congruence].
  - eexists. split; [apply generate_nonempty; discriminate|].
    split; [discriminate|reflexivity].
Qed.

(** C5: on a non-empty list the summary sentence is chosen by strict
    maximum among the three label counts: the positive sentence with
    [pos/total] and its percentage when [pos] is strictly greatest,
    the negative one with [neg/total] when [neg] is, the neutral one
    with [neu/total] when [neu] is, and the mixed-sentiment sentence,
    which embeds no count, otherwise; every summary ends with the
    clause giving the percentage of results whose confidence exceeds
    [0.7]. *)
Theorem summary_by_strict_maximum (rs : list SentimentResult.t) :
  rs <> [] ->
  let pos := count_label POSITIVE rs in
  let neg := count_label NEGATIVE rs in
  let neu := count_label NEUTRAL rs in
  let total := length rs in
  let fraction (k : nat) := (float_of_nat k / float_of_nat total)%float in
  let clause :=
    (" Analysis confidence: " ++ format_percent1 (fraction (confident_count rs))
       ++ " of statements analyzed with high confidence.")%string in
  exists insights,
    generate rs = Ok insights
    /\ (pos > neg /\ pos > neu ->
        InsightSummary.summary insights
        = (("Overwhelmingly positive sentiment detected (" ++ str_of_nat pos ++ "/"
              ++ str_of_nat total ++ ", " ++ format_percent1 (fraction pos)
              ++ "). Influencers are expressing high satisfaction and enthusiasm.")
           ++ clause)%string)
    /\ (neg > pos /\ neg > neu ->
        InsightSummary.summary insights
        = (("Concerning negative sentiment trend (" ++ str_of_nat neg ++ "/"
              ++ str_of_nat total ++ ", " ++ format_percent1 (fraction neg)
              ++ "). Significant issues require immediate attention.")
           ++ clause)%string)
    /\ (neu > pos /\ neu > neg ->
        InsightSummary.summary insights
        = (("Neutral sentiment dominates (" ++ str_of_nat neu ++ "/"
              ++ str_of_nat total ++ ", " ++ format_percent1 (fraction neu)
              ++ "). Influencers are taking a wait-and-see approach.")
           ++ clause)%string)
    /\ (~ (pos > neg /\ pos > neu) -> ~ (neg > pos /\ neg > neu) ->
        ~ (neu > pos /\ neu > neg) ->
        InsightSummary.summary insights
        = ("Mixed sentiments observed. Opinions are evenly divided among influencers with no clear majority."
           ++ clause)%string).
Proof.
  intros Hne pos neg neu total fraction clause.
  eexists. split; [apply generate_nonempty; exact Hne|].
  simpl InsightSummary.summary. fold pos neg neu total.
  destruct (Nat.ltb_spec neg pos), (Nat.ltb_spec neu pos), (Nat.ltb_spec pos neg),
    (Nat.ltb_spec neu neg), (Nat.ltb_spec pos neu), (Nat.ltb_spec neg neu);
    simpl; repeat split; intros; try reflexivity; try lia; exfalso; lia.
Qed.

(** C6, as amended: on a non-empty list the recommendations are
    exactly those whose conditions hold, in this order: two
    remediation strings when [neg > pos]; two amplification strings
    when [pos > total * 0.6]; two engagement strings when
    [neu > total * 0.4]; one critical-action string when the mean of
    the scores before rounding is below [0.4], or else one
    maintain-strategy string when that unrounded mean is above [0.7];
    one data-sufficiency string when the fraction of results with
    confidence above [0.7] is below [0.5].  The mean compared is the
    local [average_score] of [generate], [total_score / len], not the
    [average_score] field of the returned record, which is that mean
    rounded to three decimals.  When no condition holds the list is
    empty. *)
Theorem recommendations_in_fixed_order (rs : list SentimentResult.t) :
  rs <> [] ->
  let pos := count_label POSITIVE rs in
  let neg := count_label NEGATIVE rs in
  let neu := count_label NEUTRAL rs in
  let total := length rs in
  let average_score := arithmetic_mean (map SentimentResult.score rs) in
  let confidence_ratio :=
    (float_of_nat (confident_count rs) / float_of_nat total)%float in
  let remediation :=
    if pos <? neg
    then ["Address negative feedback urgently to prevent reputation damage";
          "Implement customer satisfaction improvement initiatives"]
    else [] in
  let amplification :=
    if gt (float_of_nat pos) (float_of_nat total * 0.6)%float
    then ["Leverage positive sentiment for marketing campaigns";
          "Identify and amplify positive influencer voices"]
    else [] in
  let engagement :=
    if gt (float_of_nat neu) (float_of_nat total * 0.4)%float
    then ["Engage neutral influencers with targeted content";
          "Provide more compelling value propositions"]
    else [] in
  let level :=
    if lt average_score 0.4
    then ["Critical: Overall sentiment is very low - immediate action required"]
    else if gt average_score 0.7
    then ["Excellent: Maintain current strategies and expand successful initiatives"]
    else [] in
  let sufficiency :=
    if lt confidence_ratio 0.5
    then ["Consider gathering more data for better analysis confidence"]
    else [] in
  exists insights,
    generate rs = Ok insights
    /\ InsightSummary.recommendations insights
       = Some (remediation ++ amplification ++ engagement ++ level ++ sufficiency)
    /\ ((pos <? neg) = false ->
        gt (float_of_nat pos) (float_of_nat total * 0.6)%float = false ->
        gt (float_of_nat neu) (float_of_nat total * 0.4)%float = false ->
        lt average_score 0.4 = false -> gt average_score 0.7 = false ->
        lt confidence_ratio 0.5 = false ->
        InsightSummary.recommendations insights = Some []).
Proof.
  intros Hne pos neg neu total average_score confidence_ratio
         remediation amplification engagement level sufficiency.
  eexists. split; [apply generate_nonempty; exact Hne|].
  simpl InsightSummary.recommendations.
  fold pos neg neu total average_score confidence_ratio.
  unfold _generate_recommendations.
  subst remediation amplification engagement level sufficiency.
  split.
  - destruct (pos <? neg), (gt (float_of_nat pos) _), (gt (float_of_nat neu) _),
      (lt average_score 0.4), (gt average_score 0.7), (lt confidence_ratio 0.5);
      reflexivity.
  - intros -> -> -> -> -> ->. reflexivity.
Qed.

(** *** Evaluations on concrete batches *)

Lemma average_score_is_rounded_mean_witness :
  exists insights,
    generate rounding_gap_batch = Ok insights
    /\ InsightSummary.average_score insights = 0.4%float.
Proof.
  destruct (average_score_is_rounded_mean rounding_gap_batch) as (i & Hg & _ & Hm).
  exists i. split; [exact Hg|].
  rewrite Hm by discriminate. vm_compute. reflexivity.
Defined.

Lemma summary_by_strict_maximum_witness :
  exists insights,
    generate three_two_batch = Ok insights
    /\ InsightSummary.summary insights
       = "Overwhelmingly positive sentiment detected (3/5, 60.0%). Influencers are expressing high satisfaction and enthusiasm. Analysis confidence: 80.0% of statements analyzed with high confidence.".
Proof.
  assert (Hne : three_two_batch <> []) by discriminate.
  destruct (summary_by_strict_maximum three_two_batch Hne) as (i & Hg & Hp & _).
  exists i. split; [exact Hg|].
  rewrite Hp; [vm_compute; reflexivity | vm_compute; lia].
Defined.

Lemma recommendations_in_fixed_order_witness :
  exists insights,
    generate rounding_gap_batch = Ok insights
    /\ InsightSummary.recommendations insights
       = Some ["Address negative feedback urgently to prevent reputation damage";
               "Implement customer satisfaction improvement initiatives";
               "Engage neutral influencers with targeted content";
               "Provide more compelling value propositions";
               "Critical: Overall sentiment is very low - immediate action required";
               "Consider gathering more data for better analysis confidence"].
Proof.
  assert (Hne : rounding_gap_batch <> []) by discriminate.
  destruct (recommendations_in_fixed_order rounding_gap_batch Hne) as (i & Hg & Hr & _).
  exists i. split; [exact Hg|].
  rewrite Hr. vm_compute. reflexivity.
Defined.

(** The critical-action recommendation is decided on the mean before
    rounding: on [rounding_gap_batch] the mean is below [0.4], the
    recommendation is issued, and the returned [average_score] is
    [0.4]. *)
Lemma critical_decided_before_rounding :
  lt (arithmetic_mean (map SentimentResult.score rounding_gap_batch)) 0.4 = true
  /\ lt (round3 (arithmetic_mean (map SentimentResult.score rounding_gap_batch))) 0.4
     = false.
Proof. vm_compute. split; reflexivity. Qed.

(** C6, as stated, fails when [average_score] is the value [generate]
    returns: on [rounding_gap_batch] (one NEGATIVE result scoring
    [0.30000000000000004] and one NEUTRAL result scoring [0.4992])
    the returned [average_score] is [0.4], which is neither below
    [0.4] nor above [0.7], and the critical-action string is issued
    all the same. *)
Lemma critical_issued_at_returned_average_0_4 :
  ~ (forall rs : list SentimentResult.t,
       rs <> [] ->
       exists insights recs,
         generate rs = Ok insights
         /\ InsightSummary.recommendations insights = Some recs
         /\ (List.In "Critical: Overall sentiment is very low - immediate action required"
                     recs
             <-> lt (InsightSummary.average_score insights) 0.4 = true)).
Proof.
  intros H.
  assert (Hne : rounding_gap_batch <> []) by discriminate.
  destruct (H rounding_gap_batch Hne) as (i & recs & Hg & Hr & Hiff).
  vm_compute in Hg. injection Hg as <-.
  cbn [InsightSummary.recommendations] in Hr. injection Hr as <-.
  cbn [InsightSummary.average_score] in Hiff.
  assert (Hin : List.In "Critical: Overall sentiment is very low - immediate action required"
                        ["Address negative feedback urgently to prevent reputation damage";
                         "Implement customer satisfaction improvement initiatives";
                         "Engage neutral influencers with targeted content";
                         "Provide more compelling value propositions";
                         "Critical: Overall sentiment is very low - immediate action required";
                         "Consider gathering more data for better analysis confidence"]).
  { do 4 right. left. reflexivity. }
  apply Hiff in Hin. vm_compute in Hin. discriminate.
Qed.

(** ** The service and the bulk endpoint *)

Section ServiceFacts.

Variable lower : string -> string.

(** The confidence of an analysis does not depend on the generator. *)
Lemma analyze_confidence_rng (config : AnalyzerConfig.t) (statement : string) (g g' : rng) :
  AnalysisResult.confidence (fst (analyze lower config statement g))
  = AnalysisResult.confidence (fst (analyze lower config statement g')).
Proof.
  unfold analyze.
  destruct (_ && _); [reflexivity|].
  destruct (_ && _); reflexivity.
Qed.

Lemma analyze_statements_cons (self : SentimentAnalysisService.t)
  (stmt : string) (rest : list string) (g : rng) :
  fst (analyze_statements lower self (stmt :: rest) g)
  = {| SentimentResult.statement := stmt;
       SentimentResult.sentiment :=
         AnalysisResult.sentiment
           (fst (analyze lower (SentimentAnalysisService.config self) stmt g));
       SentimentResult.score :=
         AnalysisResult.score
           (fst (analyze lower (SentimentAnalysisService.config self) stmt g));
       SentimentResult.confidence :=
         AnalysisResult.confidence
           (fst (analyze lower (SentimentAnalysisService.config self) stmt g));
       SentimentResult.keywords_found :=
         Some (AnalysisResult.keywords_found
                 (fst (analyze lower (SentimentAnalysisService.config self) stmt g))) |}
    :: fst (analyze_statements lower self rest
              (snd (analyze lower (SentimentAnalysisService.config self) stmt g))).
Proof.
  simpl analyze_statements. unfold bind at 1.
  destruct (analyze lower _ stmt g) as [a g1]. cbn [fst snd]. unfold bind.
  destruct (analyze_statements lower self rest g1) as [rs g2]. reflexivity.
Qed.

Lemma analyze_statements_length (self : SentimentAnalysisService.t)
  (statements : list string) :
  forall g, length (fst (analyze_statements lower self statements g)) = length statements.
Proof.
  induction statements as [|stmt rest IH]; intros g; [reflexivity|].
  rewrite analyze_statements_cons. simpl. rewrite IH. reflexivity.
Qed.

Lemma analyze_statements_confident_rng (self : SentimentAnalysisService.t)
  (statements : list string) :
  forall g g',
    confident_count (fst (analyze_statements lower self statements g))
    = confident_count (fst (analyze_statements lower self statements g')).
Proof.
  induction statements as [|stmt rest IH]; intros g g'; [reflexivity|].
  rewrite !analyze_statements_cons, !confident_count_cons.
  simpl SentimentResult.confidence.
  rewrite (analyze_confidence_rng _ stmt g g'). f_equal. apply IH.
Qed.

Lemma high_conf_count_eq (rs : list SentimentResult.t) :
  high_conf_count rs = confident_count rs.
Proof.
  unfold high_conf_count, confident_count.
  induction (List.filter _ rs) as [|x l IH]; simpl; [reflexivity|].
  rewrite IH. reflexivity.
Qed.

Lemma generate_insights_eq (self : SentimentAnalysisService.t)
  (statements : list string) (g : rng) :
  generate_insights lower self statements g
  = (match generate (fst (analyze_statements lower self statements g)) with
     | Ok insights => Ok insights
     | Raise e =>
         Raise (HTTPException 500 ("Error generating insights: " ++ str_exn e))
     end,
     snd (analyze_statements lower self statements g)).
Proof.
  unfold generate_insights, bind, ret.
  destruct (analyze_statements lower self statements g) as [rs g1]. reflexivity.
Qed.

Lemma bulk_analysis_metadata_eq (statements : list string) (g : rng) :
  statements <> [] ->
  fst (bulk_analysis lower
         {| BulkStatementRequest.statements := statements;
            BulkStatementRequest.include_metadata := Some true |} g)
  = match fst (generate_insights lower sentiment_service statements g) with
    | Ok insights =>
        append_recommendation insights
          (metadata_recommendation
             (fst (analyze_statements lower sentiment_service statements
                     (snd (generate_insights lower sentiment_service statements g)))))
    | Raise e => Raise e
    end.
Proof.
  intros Hne. destruct statements as [|s0 rest]; [congruence|].
  unfold bulk_analysis.
  cbn [BulkStatementRequest.statements BulkStatementRequest.include_metadata truthy].
  unfold bind at 1.
  destruct (generate_insights lower sentiment_service (s0 :: rest) g) as [[i|e] g1];
    cbn [fst snd]; [|reflexivity].
  unfold bind, ret.
  destruct (analyze_statements lower sentiment_service (s0 :: rest) g1) as [rs' g3].
  reflexivity.
Qed.

(** C8: on a non-empty statement list, [bulk_analysis] with
    [include_metadata] true returns the summary that
    [generate_insights] computes for those statements with exactly one
    recommendation appended at the end; the appended string is
    ["Processing metadata: "] followed by ["<k>/<n> high-confidence
    results"], where [n] is the number of statements and [k] the
    number of their analyses with confidence above [0.7] (the same
    whatever the random generator draws). *)
Theorem bulk_analysis_appends_metadata (statements : list string) (g : rng) :
  statements <> [] ->
  let request :=
    {| BulkStatementRequest.statements := statements;
       BulkStatementRequest.include_metadata := Some true |} in
  exists insights recommendations appended,
    fst (generate_insights lower sentiment_service statements g) = Ok insights
    /\ InsightSummary.recommendations insights = Some recommendations
    /\ fst (bulk_analysis lower request g)
       = Ok {| InsightSummary.summary := InsightSummary.summary insights;
               InsightSummary.sentiment_distribution :=
                 InsightSummary.sentiment_distribution insights;
               InsightSummary.average_score := InsightSummary.average_score insights;
               InsightSummary.total_statements :=
                 InsightSummary.total_statements insights;
               InsightSummary.recommendations :=
                 Some (recommendations ++ [appended]) |}
    /\ forall g',
         let k := confident_count
                    (fst (analyze_statements lower sentiment_service statements g')) in
         let n := length statements in
         appended
         = ("Processing metadata: "
              ++ (str_of_nat k ++ "/" ++ str_of_nat n ++ " high-confidence results"))%string.
Proof.
  intros Hne request. subst request.
  rewrite bulk_analysis_metadata_eq by exact Hne.
  rewrite generate_insights_eq. cbn [fst snd].
  set (rs := fst (analyze_statements lower sentiment_service statements g)).
  set (g1 := snd (analyze_statements lower sentiment_service statements g)).
  destruct (generate_total rs) as (insights & recs & Hgen & Hrecs & _).
  rewrite Hgen.
  exists insights, recs,
    (metadata_recommendation
       (fst (analyze_statements lower sentiment_service statements g1))).
  split; [reflexivity|]. split; [exact Hrecs|]. split.
  - unfold append_recommendation. rewrite Hrecs. reflexivity.
  - intros g'. cbv zeta. unfold metadata_recommendation.
    rewrite high_conf_count_eq, analyze_statements_length.
    rewrite (analyze_statements_confident_rng sentiment_service statements g1 g').
    reflexivity.
Qed.

End ServiceFacts.

Lemma bulk_analysis_appends_metadata_witness :
  exists insights,
    fst (bulk_analysis ascii_lower
           {| BulkStatementRequest.statements := fallback_statements;
              BulkStatementRequest.include_metadata := Some true |}
           constant_rng) = Ok insights
    /\ InsightSummary.recommendations insights
       = Some ["Processing metadata: 4/5 high-confidence results"].
Proof.
  assert (Hne : fallback_statements <> []) by discriminate.
  destruct (bulk_analysis_appends_metadata ascii_lower fallback_statements
              constant_rng Hne) as (i & recs & x & Hgi & Hrecs & Hb & Hx).
  eexists. split; [exact Hb|].
  simpl InsightSummary.recommendations.
  rewrite (Hx constant_rng).
  assert (Hr : recs = []).
  { vm_compute in Hgi. injection Hgi as <-. vm_compute in Hrecs. congruence. }
  rewrite Hr. vm_compute. reflexivity.
Defined.

(** * Further properties of the code *)

(** ** Substring search *)

Lemma append_cons (c : ascii) (a b : string) :
  (String c a ++ b)%string = String c (a ++ b)%string.
Proof. reflexivity. Qed.

Lemma append_empty (b : string) : (EmptyString ++ b)%string = b.
Proof. reflexivity. Qed.

Lemma prefix_occurs (w s : string) :
  String.prefix w s = true <-> exists post, s = (w ++ post)%string.
Proof.
  revert s. induction w as [|c w IH]; intros s.
  - split; [intros _; exists s; reflexivity|intros _; destruct s; reflexivity].
  - destruct s as [|d s].
    + split; [discriminate|intros [post H]; rewrite append_cons in H; discriminate].
    + change (String.prefix (String c w) (String d s))
        with (if Ascii.ascii_dec c d then String.prefix w s else false).
      destruct (Ascii.ascii_dec c d) as [->|Hne].
      * rewrite IH. split; intros [post H]; exists post; rewrite append_cons in *;
          congruence.
      * split; [discriminate|intros [post H]; rewrite append_cons in H; congruence].
Qed.

Lemma contains_empty (w : string) :
  contains w EmptyString = String.prefix w EmptyString || false.
Proof. reflexivity. Qed.

Lemma contains_cons (w : string) (c : ascii) (s : string) :
  contains w (String c s) = String.prefix w (String c s) || contains w s.
Proof. reflexivity. Qed.

Lemma contains_occurs (w s : string) :
  contains w s = true <-> occurs_in w s.
Proof.
  unfold occurs_in. split.
  - induction s as [|c s IH];
      [rewrite contains_empty|rewrite contains_cons];
      rewrite orb_true_iff; intros [H|H].
    + apply prefix_occurs in H as [post H]. exists EmptyString, post. exact H.
    + discriminate.
    + apply prefix_occurs in H as [post H]. exists EmptyString, post. exact H.
    + destruct (IH H) as (pre & post & ->). exists (String c pre), post. reflexivity.
  - intros (pre & post & ->). induction pre as [|c pre IH].
    + rewrite append_empty.
      assert (Hp : String.prefix w (w ++ post) = true)
        by (apply prefix_occurs; exists post; reflexivity).
      destruct (w ++ post)%string;
        [rewrite contains_empty|rewrite contains_cons]; rewrite Hp; reflexivity.
    + rewrite append_cons, contains_cons. apply orb_true_iff. right. exact IH.
Qed.

Lemma keyword_matches_In (keywords : list string) (text w : string) :
  List.In w (keyword_matches keywords text) <-> List.In w keywords /\ occurs_in w text.
Proof. unfold keyword_matches. rewrite filter_In, contains_occurs. reflexivity. Qed.

(** X1: a keyword is reported for a statement text exactly when it is
    in the configured list and occurs in the text as a contiguous
    substring (no word boundaries; the empty keyword occurs in every
    text); it is reported as many times as the list holds it, in the
    order of the list. *)
Theorem keyword_matches_spec (keywords : list string) (text w : string) :
  (List.In w (keyword_matches keywords text) <-> List.In w keywords /\ occurs_in w text)
  /\ (occurs_in w text ->
      count_occ String.string_dec (keyword_matches keywords text) w
      = count_occ String.string_dec keywords w)
  /\ (w = EmptyString -> List.In w keywords -> List.In w (keyword_matches keywords text))
  /\ sublist (keyword_matches keywords text) keywords.
Proof.
  split; [apply keyword_matches_In|].
  unfold keyword_matches. split; [|split].
  - intros H. rewrite count_occ_filter.
    apply contains_occurs in H. rewrite H. reflexivity.
  - intros -> H. apply filter_In. split; [exact H|].
    apply contains_occurs. exists EmptyString, text. reflexivity.
  - induction keywords as [|k ks IH]; simpl; [constructor|].
    destruct (contains k text); constructor; exact IH.
Qed.

(** ** More on the analyser *)

Section AnalyzerMore.

Variable lower : string -> string.

(** The three exits of [analyze], with the generator state each
    leaves. *)
Lemma analyze_cases (config : AnalyzerConfig.t) (statement : string) (g : rng) :
  let pm := keyword_matches (AnalyzerConfig.positive_keywords config) (lower statement) in
  let nm := keyword_matches (AnalyzerConfig.negative_keywords config) (lower statement) in
  let um := keyword_matches (AnalyzerConfig.neutral_keywords config) (lower statement) in
  let p := length pm in
  let n := length nm in
  let u := length um in
  (p > n /\ p > u
   /\ analyze lower config statement g
      = ({| AnalysisResult.sentiment := POSITIVE;
            AnalysisResult.score :=
              py_min (AnalyzerConfig.maximum_score config) (0.6 + float_of_nat p * 0.1)%float;
            AnalysisResult.confidence := py_min 0.95 (0.5 + float_of_nat p * 0.15)%float;
            AnalysisResult.keywords_found := pm |}, g))
  \/ (~ (p > n /\ p > u) /\ n > p /\ n > u
   /\ analyze lower config statement g
      = ({| AnalysisResult.sentiment := NEGATIVE;
            AnalysisResult.score :=
              py_max (AnalyzerConfig.minimum_score config) (0.4 - float_of_nat n * 0.1)%float;
            AnalysisResult.confidence := py_min 0.95 (0.5 + float_of_nat n * 0.15)%float;
            AnalysisResult.keywords_found := nm |}, g))
  \/ (~ (p > n /\ p > u) /\ ~ (n > p /\ n > u)
   /\ analyze lower config statement g
      = ({| AnalysisResult.sentiment := NEUTRAL;
            AnalysisResult.score := draws g (cursor g);
            AnalysisResult.confidence := (0.5 + float_of_nat u * 0.1)%float;
            AnalysisResult.keywords_found := um |},
         {| draws := draws g; cursor := S (cursor g) |})).
Proof.
  intros pm nm um p n u. unfold analyze. fold pm nm um. fold p n u.
  destruct (Nat.ltb_spec n p) as [Hnp|Hnp]; destruct (Nat.ltb_spec u p) as [Hup|Hup];
    simpl; try (left; repeat split; (reflexivity || lia));
    destruct (Nat.ltb_spec p n) as [Hpn|Hpn]; destruct (Nat.ltb_spec u n) as [Hun|Hun];
    simpl; try (right; left; repeat split; (reflexivity || lia));
    right; right; (split; [lia|]); (split; [lia|]);
    unfold bind, uniform, ret; rewrite or_empty_id; reflexivity.
Qed.

(** X2: the label is POSITIVE exactly when the positive matches
    strictly outnumber both other kinds, NEGATIVE exactly when the
    negative matches do, and NEUTRAL in every other case. *)
Theorem analyze_label_iff (config : AnalyzerConfig.t) (statement : string) (g : rng) :
  let p := length (keyword_matches (AnalyzerConfig.positive_keywords config) (lower statement)) in
  let n := length (keyword_matches (AnalyzerConfig.negative_keywords config) (lower statement)) in
  let u := length (keyword_matches (AnalyzerConfig.neutral_keywords config) (lower statement)) in
  let r := fst (analyze lower config statement g) in
  (AnalysisResult.sentiment r = POSITIVE <-> p > n /\ p > u)
  /\ (AnalysisResult.sentiment r = NEGATIVE <-> n > p /\ n > u)
  /\ (AnalysisResult.sentiment r = NEUTRAL <-> ~ (p > n /\ p > u) /\ ~ (n > p /\ n > u)).
Proof.
  intros p n u r. subst r.
  destruct (analyze_cases config statement g) as [(H1 & H2 & ->)|[(H1 & H2 & H3 & ->)|(H1 & H2 & ->)]];
    fold p n u in H1, H2; try fold p n u in H3; simpl;
    repeat split; intros; try discriminate; try reflexivity; try lia; try tauto.
Qed.

(** X3: [keywords_found] is the list of matches of the label that
    was chosen: each reported keyword is configured for that label
    and occurs in the lower-cased statement, and a POSITIVE or
    NEGATIVE result reports at least one keyword. *)
Theorem analyze_keywords_found (config : AnalyzerConfig.t) (statement : string) (g : rng) :
  let r := fst (analyze lower config statement g) in
  AnalysisResult.keywords_found r
  = keyword_matches (keywords_of config (AnalysisResult.sentiment r)) (lower statement)
  /\ (forall w, List.In w (AnalysisResult.keywords_found r) ->
        List.In w (keywords_of config (AnalysisResult.sentiment r))
        /\ occurs_in w (lower statement))
  /\ (AnalysisResult.sentiment r <> NEUTRAL -> AnalysisResult.keywords_found r <> []).
Proof.
  intros r.
  assert (Heq : AnalysisResult.keywords_found r
                = keyword_matches (keywords_of config (AnalysisResult.sentiment r))
                                  (lower statement)).
  { subst r.
    destruct (analyze_cases config statement g) as [(_ & _ & ->)|[(_ & _ & _ & ->)|(_ & _ & ->)]];
      reflexivity. }
  split; [exact Heq|]. split.
  - intros w Hw. rewrite Heq in Hw.
    apply keyword_matches_In in Hw. exact Hw.
  - subst r.
    destruct (analyze_cases config statement g) as [(H1 & H2 & ->)|[(H1 & H2 & H3 & ->)|(_ & _ & ->)]];
      simpl; intros Hs E; try congruence; rewrite E in *; simpl in *; lia.
Qed.

(** X4: the generator influences nothing but the score of a NEUTRAL
    result.  Label, confidence and keywords are the same for every
    generator state; a POSITIVE or NEGATIVE analysis has the same
    score too and leaves the generator untouched; a NEUTRAL analysis
    returns the next draw and advances the generator by one. *)
Theorem analyze_randomness (config : AnalyzerConfig.t) (statement : string) (g g' : rng) :
  let r := fst (analyze lower config statement g) in
  let r' := fst (analyze lower config statement g') in
  AnalysisResult.sentiment r = AnalysisResult.sentiment r'
  /\ AnalysisResult.confidence r = AnalysisResult.confidence r'
  /\ AnalysisResult.keywords_found r = AnalysisResult.keywords_found r'
  /\ (AnalysisResult.sentiment r <> NEUTRAL ->
      AnalysisResult.score r = AnalysisResult.score r'
      /\ snd (analyze lower config statement g) = g)
  /\ (AnalysisResult.sentiment r = NEUTRAL ->
      AnalysisResult.score r = draws g (cursor g)
      /\ snd (analyze lower config statement g)
         = {| draws := draws g; cursor := S (cursor g) |}).
Proof.
  intros r r'. subst r r'.
  destruct (analyze_cases config statement g) as [(H1 & H2 & ->)|[(H1 & H2 & H3 & ->)|(H1 & H2 & ->)]];
    destruct (analyze_cases config statement g') as [(K1 & K2 & ->)|[(K1 & K2 & K3 & ->)|(K1 & K2 & ->)]];
    try (exfalso; tauto); try (exfalso; lia); simpl;
    repeat split; intros; try reflexivity; try congruence.
Qed.

(** X5: a statement in which no configured keyword occurs is NEUTRAL
    with confidence [0.5], no keyword, and the drawn score. *)
Theorem analyze_no_match (config : AnalyzerConfig.t) (statement : string) (g : rng) :
  (forall t w, List.In w (keywords_of config t) -> ~ occurs_in w (lower statement)) ->
  fst (analyze lower config statement g)
  = {| AnalysisResult.sentiment := NEUTRAL;
       AnalysisResult.score := draws g (cursor g);
       AnalysisResult.confidence := 0.5;
       AnalysisResult.keywords_found := [] |}.
Proof.
  intros Hno.
  assert (Hnil : forall t, keyword_matches (keywords_of config t) (lower statement) = []).
  { intros t. destruct (keyword_matches _ _) as [|w ws] eqn:E; [reflexivity|].
    assert (Hin : List.In w (keyword_matches (keywords_of config t) (lower statement)))
      by (rewrite E; left; reflexivity).
    apply keyword_matches_In in Hin as [Hin Hocc].
    destruct (Hno t w Hin Hocc). }
  pose proof (Hnil POSITIVE) as Hp. pose proof (Hnil NEGATIVE) as Hn.
  pose proof (Hnil NEUTRAL) as Hu. simpl in Hp, Hn, Hu.
  unfold analyze. rewrite Hp, Hn, Hu. reflexivity.
Qed.

End AnalyzerMore.

Lemma analyze_no_match_witness :
  fst (analyze ascii_lower AnalyzerConfig.default "" constant_rng)
  = {| AnalysisResult.sentiment := NEUTRAL;
       AnalysisResult.score := 0.5;
       AnalysisResult.confidence := 0.5;
       AnalysisResult.keywords_found := [] |}.
Proof.
  rewrite analyze_no_match; [reflexivity|].
  intros t w Hin Hocc. apply contains_occurs in Hocc.
  destruct t; simpl in Hin;
    repeat (destruct Hin as [<-|Hin]; [vm_compute in Hocc; discriminate|]);
    destruct Hin.
Defined.

(** ** The default configuration, value by value *)

Section DefaultTable.

Variable lower : string -> string.

Lemma default_neutral_bound s :
  length (keyword_matches (AnalyzerConfig.neutral_keywords AnalyzerConfig.default) s) <= 6.
Proof. apply (keyword_matches_length (AnalyzerConfig.neutral_keywords AnalyzerConfig.default)). Qed.

(** The results [analyze] can return under the default configuration,
    indexed by the number [k] of reported keywords. *)
Lemma analyze_default_table (statement : string) (g : rng) :
  let r := fst (analyze lower AnalyzerConfig.default statement g) in
  let k := length (AnalysisResult.keywords_found r) in
  (1 <= k <= 11
   /\ AnalysisResult.sentiment r = POSITIVE
   /\ AnalysisResult.score r = py_min 0.9 (0.6 + float_of_nat k * 0.1)%float
   /\ AnalysisResult.confidence r = py_min 0.95 (0.5 + float_of_nat k * 0.15)%float)
  \/ (1 <= k <= 10
   /\ AnalysisResult.sentiment r = NEGATIVE
   /\ AnalysisResult.score r = py_max 0.1 (0.4 - float_of_nat k * 0.1)%float
   /\ AnalysisResult.confidence r = py_min 0.95 (0.5 + float_of_nat k * 0.15)%float)
  \/ (k <= 6
   /\ AnalysisResult.sentiment r = NEUTRAL
   /\ AnalysisResult.score r = draws g (cursor g)
   /\ AnalysisResult.confidence r = (0.5 + float_of_nat k * 0.1)%float).
Proof.
  intros r k. subst k r.
  pose proof (default_positive_bound (lower statement)) as Hp.
  pose proof (default_negative_bound (lower statement)) as Hn.
  pose proof (default_neutral_bound (lower statement)) as Hu.
  destruct (analyze_cases lower AnalyzerConfig.default statement g)
    as [(H1 & H2 & ->)|[(H1 & H2 & H3 & ->)|(H1 & H2 & ->)]];
    cbn [fst AnalysisResult.sentiment AnalysisResult.score AnalysisResult.confidence
         AnalysisResult.keywords_found].
  - left. repeat split; try reflexivity; lia.
  - right; left. repeat split; try reflexivity; lia.
  - right; right. repeat split; try reflexivity; lia.
Qed.

(** X6: under the default configuration the score and the confidence
    of a POSITIVE or NEGATIVE result take three values each, decided
    by the number of reported keywords: one keyword gives score [0.7]
    (POSITIVE) or [0.30000000000000004] (NEGATIVE) with confidence
    [0.65], two give [0.8] or [0.2] with confidence [0.8], three or
    more give the capped score [0.9] or [0.1] with the capped
    confidence [0.95]. *)
Theorem default_scores_saturate (statement : string) (g : rng) :
  let r := fst (analyze lower AnalyzerConfig.default statement g) in
  let k := length (AnalysisResult.keywords_found r) in
  (AnalysisResult.sentiment r = POSITIVE ->
     (k = 1 /\ AnalysisResult.score r = 0.7%float
        /\ AnalysisResult.confidence r = 0.65%float)
     \/ (k = 2 /\ AnalysisResult.score r = 0.8%float
        /\ AnalysisResult.confidence r = 0.8%float)
     \/ (3 <= k /\ AnalysisResult.score r = 0.9%float
        /\ AnalysisResult.confidence r = 0.95%float))
  /\ (AnalysisResult.sentiment r = NEGATIVE ->
     (k = 1 /\ AnalysisResult.score r = 0.30000000000000004%float
        /\ AnalysisResult.confidence r = 0.65%float)
     \/ (k = 2 /\ AnalysisResult.score r = 0.2%float
        /\ AnalysisResult.confidence r = 0.8%float)
     \/ (3 <= k /\ AnalysisResult.score r = 0.1%float
        /\ AnalysisResult.confidence r = 0.95%float)).
Proof.
  intros r k.
  destruct (analyze_default_table statement g)
    as [(Hk & Hs & Hv & Hc)|[(Hk & Hs & Hv & Hc)|(Hk & Hs & Hv & Hc)]];
    fold r in Hk, Hs, Hv, Hc; fold k in Hk, Hv, Hc;
    rewrite Hs; (split; [|]); intros E; try discriminate E;
    rewrite Hv, Hc; clear Hv Hc;
    do 12 (destruct k as [|k];
           [first [exfalso; lia
                  | left; split; [reflexivity|split; vm_compute; reflexivity]
                  | right; left; split; [reflexivity|split; vm_compute; reflexivity]
                  | right; right; split; [lia|split; vm_compute; reflexivity]]|]);
    exfalso; lia.
Qed.

(** X7: under the default configuration the confidence lies in
    [[0.5, 1.1]]; it exceeds [1] exactly for a NEUTRAL result that
    reports all six neutral keywords. *)
Theorem default_confidence_range (statement : string) (g : rng) :
  let r := fst (analyze lower AnalyzerConfig.default statement g) in
  within 0.5 1.1 (AnalysisResult.confidence r) = true
  /\ (gt (AnalysisResult.confidence r) 1 = true <->
      AnalysisResult.sentiment r = NEUTRAL
      /\ length (AnalysisResult.keywords_found r) = 6).
Proof.
  intros r.
  destruct (analyze_default_table statement g)
    as [(Hk & Hs & _ & Hc)|[(Hk & Hs & _ & Hc)|(Hk & Hs & _ & Hc)]];
    fold r in Hk, Hs, Hc; rewrite Hs, Hc; clear Hc;
    set (k := length (AnalysisResult.keywords_found r)) in *; clearbody k;
    do 12 (destruct k as [|k];
           [first [exfalso; lia
                  | split; [vm_compute; reflexivity|];
                    split; [vm_compute; discriminate | intros [? ?]; discriminate]
                  | split; [vm_compute; reflexivity|];
                    split; [intros _; split; reflexivity | intros _; vm_compute; reflexivity]]|]);
    exfalso; lia.
Qed.

(** X8: under the default configuration a result is counted as
    high-confidence (confidence above [0.7]) exactly when it is
    POSITIVE or NEGATIVE with at least two keywords, or NEUTRAL with
    at least three; a single keyword match is never high-confidence. *)
Theorem default_high_confidence_iff (statement : string) (g : rng) :
  let r := fst (analyze lower AnalyzerConfig.default statement g) in
  let k := length (AnalysisResult.keywords_found r) in
  gt (AnalysisResult.confidence r) 0.7 = true <->
  (AnalysisResult.sentiment r <> NEUTRAL /\ 2 <= k)
  \/ (AnalysisResult.sentiment r = NEUTRAL /\ 3 <= k).
Proof.
  intros r k.
  destruct (analyze_default_table statement g)
    as [(Hk & Hs & _ & Hc)|[(Hk & Hs & _ & Hc)|(Hk & Hs & _ & Hc)]];
    fold r in Hk, Hs, Hc; fold k in Hk, Hc; rewrite Hs, Hc; clear Hc;
    clearbody k;
    do 12 (destruct k as [|k];
           [first [exfalso; lia
                  | split; [vm_compute; discriminate
                           | intros [[? ?]|[? ?]]; first [discriminate | congruence | lia]]
                  | split; [intros _; first [left; split; [discriminate|lia]
                                            | right; split; [reflexivity|lia]]
                           | intros _; vm_compute; reflexivity]]|]);
    exfalso; lia.
Qed.

End DefaultTable.

(** ** Batches, the service and the endpoints *)

Section ServiceMore.

Variable lower : string -> string.

Lemma analyze_sentiment_rng (config : AnalyzerConfig.t) (statement : string) (g g' : rng) :
  AnalysisResult.sentiment (fst (analyze lower config statement g))
  = AnalysisResult.sentiment (fst (analyze lower config statement g')).
Proof.
  unfold analyze.
  destruct (_ && _); [reflexivity|].
  destruct (_ && _); reflexivity.
Qed.

(** The generator after one analysis, and the score of a NEUTRAL
    result. *)
Lemma analyze_generator (config : AnalyzerConfig.t) (statement : string) (g : rng) :
  let r := fst (analyze lower config statement g) in
  snd (analyze lower config statement g)
  = {| draws := draws g;
       cursor := cursor g
                 + (if SentimentType_eqb (AnalysisResult.sentiment r) NEUTRAL
                    then 1 else 0) |}
  /\ (AnalysisResult.sentiment r = NEUTRAL ->
      AnalysisResult.score r = draws g (cursor g)).
Proof.
  intros r. subst r.
  destruct (analyze_cases lower config statement g)
    as [(_ & _ & ->)|[(_ & _ & _ & ->)|(_ & _ & ->)]]; simpl;
    (split; [|first [discriminate|reflexivity]]).
  - destruct g; simpl. rewrite Nat.add_0_r. reflexivity.
  - destruct g; simpl. rewrite Nat.add_0_r. reflexivity.
  - rewrite Nat.add_1_r. reflexivity.
Qed.

Lemma analyze_batch_cons (config : AnalyzerConfig.t)
  (stmt : string) (rest : list string) (g : rng) :
  analyze_batch lower config (stmt :: rest) g
  = (fst (analyze lower config stmt g)
       :: fst (analyze_batch lower config rest (snd (analyze lower config stmt g))),
     snd (analyze_batch lower config rest (snd (analyze lower config stmt g)))).
Proof.
  simpl analyze_batch. unfold bind at 1.
  destruct (analyze lower config stmt g) as [a g1]. cbn [fst snd]. unfold bind.
  destruct (analyze_batch lower config rest g1) as [rs g2]. reflexivity.
Qed.

Lemma analyze_statements_snd (self : SentimentAnalysisService.t)
  (stmt : string) (rest : list string) (g : rng) :
  snd (analyze_statements lower self (stmt :: rest) g)
  = snd (analyze_statements lower self rest
           (snd (analyze lower (SentimentAnalysisService.config self) stmt g))).
Proof.
  simpl analyze_statements. unfold bind at 1.
  destruct (analyze lower _ stmt g) as [a g1]. cbn [fst snd]. unfold bind.
  destruct (analyze_statements lower self rest g1) as [rs g2]. reflexivity.
Qed.

(** X9: [analyze_batch] returns one result per statement, in the
    order of the statements: the empty batch gives the empty list,
    and the result at every position is the analysis of the statement
    at that position. *)
Theorem analyze_batch_pointwise (config : AnalyzerConfig.t) (statements : list string) :
  forall g,
    length (fst (analyze_batch lower config statements g)) = length statements
    /\ (statements = [] -> analyze_batch lower config statements g = ([], g))
    /\ forall i stmt r,
         statements !! i = Some stmt ->
         fst (analyze_batch lower config statements g) !! i = Some r ->
         exists gi,
           r = fst (analyze lower config stmt gi)
           /\ draws gi = draws g /\ cursor g <= cursor gi.
Proof.
  induction statements as [|s rest IH]; intros g.
  - repeat split. intros i stmt r H. destruct i; discriminate.
  - rewrite analyze_batch_cons. cbn [fst length].
    destruct (IH (snd (analyze lower config s g))) as (Hlen & _ & Hpt).
    split; [rewrite Hlen; reflexivity|]. split; [discriminate|].
    intros [|i] stmt r Hs Hr; simpl in Hs, Hr.
    + injection Hs as ->. injection Hr as <-. exists g. repeat split. lia.
    + destruct (Hpt i stmt r Hs Hr) as (gi & -> & Hd & Hc).
      destruct (analyze_generator config s g) as [Hg _]. rewrite Hg in Hd, Hc.
      simpl in Hd, Hc. exists gi. repeat split; [exact Hd|lia].
Qed.

(** X10: [analyze_statements] is [analyze_batch] with each statement
    attached to its result: the analyses and the final generator are
    those of [analyze_batch], the statements of the results are the
    input statements in order, and [keywords_found] is never [None]. *)
Theorem analyze_statements_batch (self : SentimentAnalysisService.t)
  (statements : list string) :
  forall g,
    let results := fst (analyze_statements lower self statements g) in
    map analysis_of results
    = fst (analyze_batch lower (SentimentAnalysisService.config self) statements g)
    /\ snd (analyze_statements lower self statements g)
       = snd (analyze_batch lower (SentimentAnalysisService.config self) statements g)
    /\ map SentimentResult.statement results = statements
    /\ Forall (fun r => SentimentResult.keywords_found r <> None) results.
Proof.
  induction statements as [|s rest IH]; intros g results; subst results.
  - repeat split. constructor.
  - rewrite analyze_statements_cons, analyze_statements_snd, analyze_batch_cons.
    cbn [fst snd map].
    destruct (IH (snd (analyze lower (SentimentAnalysisService.config self) s g)))
      as (H1 & H2 & H3 & H4).
    rewrite H1, H2, H3. repeat split.
    + f_equal. unfold analysis_of. simpl.
      destruct (fst (analyze lower _ s g)); reflexivity.
    + constructor; [discriminate|exact H4].
Qed.

Lemma analyze_statements_sentiments_rng (self : SentimentAnalysisService.t)
  (statements : list string) :
  forall g g' t,
    count_label t (fst (analyze_statements lower self statements g))
    = count_label t (fst (analyze_statements lower self statements g')).
Proof.
  induction statements as [|s rest IH]; intros g g' t; [reflexivity|].
  rewrite !analyze_statements_cons, !count_label_cons.
  simpl SentimentResult.sentiment.
  rewrite (analyze_sentiment_rng _ s g g'). f_equal. apply IH.
Qed.

(** The generator after a run of [analyze_statements]. *)
Lemma analyze_statements_generator (self : SentimentAnalysisService.t)
  (statements : list string) :
  forall g,
    let results := fst (analyze_statements lower self statements g) in
    let neutral :=
      List.filter (fun r => SentimentType_eqb (SentimentResult.sentiment r) NEUTRAL)
                  results in
    snd (analyze_statements lower self statements g)
    = {| draws := draws g; cursor := cursor g + length neutral |}
    /\ map SentimentResult.score neutral
       = map (draws g) (seq (cursor g) (length neutral)).
Proof.
  induction statements as [|s rest IH]; intros g results neutral; subst neutral results.
  - simpl. rewrite Nat.add_0_r. destruct g; split; reflexivity.
  - rewrite analyze_statements_cons, analyze_statements_snd.
    destruct (analyze_generator (SentimentAnalysisService.config self) s g) as [Hg Hsc].
    set (g1 := snd (analyze lower (SentimentAnalysisService.config self) s g)) in *.
    assert (Hd : draws g1 = draws g) by (rewrite Hg; reflexivity).
    assert (Hc : cursor g1
                 = cursor g
                   + (if SentimentType_eqb
                           (AnalysisResult.sentiment
                              (fst (analyze lower (SentimentAnalysisService.config self) s g)))
                           NEUTRAL
                      then 1 else 0)) by (rewrite Hg; reflexivity).
    clear Hg. destruct (IH g1) as [H1 H2]. clear IH.
    rewrite H1. cbn [List.filter SentimentResult.sentiment].
    destruct (AnalysisResult.sentiment
                (fst (analyze lower (SentimentAnalysisService.config self) s g)))
      eqn:Hs; cbn [SentimentType_eqb] in Hc |- *.
    + rewrite Nat.add_0_r in Hc. rewrite H2, Hd, Hc. split; reflexivity.
    + rewrite Nat.add_0_r in Hc. rewrite H2, Hd, Hc. split; reflexivity.
    + cbn [length map seq SentimentResult.score].
      rewrite (Hsc eq_refl), H2, Hd, Hc, Nat.add_1_r. split; [|reflexivity].
      f_equal. lia.
Qed.

(** X11: [analyze_statements] draws one random number per NEUTRAL
    result and none otherwise: the generator is advanced by the
    number of NEUTRAL results, and the NEUTRAL scores, in order, are
    the consecutive draws from the cursor on. *)
Theorem analyze_statements_draws (self : SentimentAnalysisService.t)
  (statements : list string) (g : rng) :
  let results := fst (analyze_statements lower self statements g) in
  let neutral :=
    List.filter (fun r => SentimentType_eqb (SentimentResult.sentiment r) NEUTRAL)
                results in
  snd (analyze_statements lower self statements g)
  = {| draws := draws g; cursor := cursor g + length neutral |}
  /\ map SentimentResult.score neutral
     = map (draws g) (seq (cursor g) (length neutral)).
Proof. apply analyze_statements_generator. Qed.

End ServiceMore.

Section EndpointFacts.

Variable lower : string -> string.

(** [generate_insights] never answers with an error. *)
Lemma generate_insights_ok (self : SentimentAnalysisService.t)
  (statements : list string) (g : rng) :
  exists insights recommendations,
    fst (generate_insights lower self statements g) = Ok insights
    /\ generate (fst (analyze_statements lower self statements g)) = Ok insights
    /\ InsightSummary.recommendations insights = Some recommendations
    /\ InsightSummary.total_statements insights = length statements.
Proof.
  rewrite generate_insights_eq. cbn [fst].
  destruct (generate_total (fst (analyze_statements lower self statements g)))
    as (i & recs & Hgen & Hrecs & Htot).
  exists i, recs. rewrite Hgen. repeat split; [exact Hrecs|].
  rewrite Htot. apply analyze_statements_length.
Qed.

(** X12: the three POST endpoints answer 400 "No statements provided"
    exactly when the statement list is empty, without touching the
    random generator; on a non-empty list each of them succeeds (no
    500 is ever produced), [/sentiment] with one result per statement
    and the other two with [total_statements] equal to the number of
    statements. *)
Theorem endpoints_reject_only_empty
  (statements : list string) (include_metadata : option bool) (g : rng) :
  let bad_request := HTTPException 400 "No statements provided" in
  let sentiment :=
    sentiment_analysis lower {| StatementRequest.statements := statements |} g in
  let insight :=
    insight_summary lower {| StatementRequest.statements := statements |} g in
  let bulk :=
    bulk_analysis lower {| BulkStatementRequest.statements := statements;
                           BulkStatementRequest.include_metadata := include_metadata |} g in
  (statements = [] ->
     sentiment = (Raise bad_request, g) /\ insight = (Raise bad_request, g)
     /\ bulk = (Raise bad_request, g))
  /\ (statements <> [] ->
     (exists results, fst sentiment = Ok results /\ length results = length statements)
     /\ (exists insights,
           fst insight = Ok insights
           /\ InsightSummary.total_statements insights = length statements)
     /\ (exists insights,
           fst bulk = Ok insights
           /\ InsightSummary.total_statements insights = length statements)).
Proof.
  intros bad_request sentiment insight bulk. subst bad_request sentiment insight bulk.
  split.
  - intros ->. repeat split.
  - intros Hne. destruct statements as [|s0 rest]; [congruence|].
    set (statements := s0 :: rest) in *.
    split; [|split].
    + unfold sentiment_analysis. cbn [StatementRequest.statements].
      unfold statements at 1. cbv beta iota. unfold bind, ret.
      destruct (analyze_statements lower sentiment_service statements g) as [rs g1] eqn:E.
      exists rs. split; [reflexivity|].
      change rs with (fst (rs, g1)). rewrite <- E. apply analyze_statements_length.
    + unfold insight_summary. cbn [StatementRequest.statements].
      unfold statements at 1. cbv beta iota.
      destruct (generate_insights_ok sentiment_service statements g)
        as (i & recs & Hi & _ & _ & Htot).
      exists i. split; [exact Hi|exact Htot].
    + unfold bulk_analysis.
      cbn [BulkStatementRequest.statements BulkStatementRequest.include_metadata].
      unfold statements at 1. cbv beta iota. unfold bind at 1.
      destruct (generate_insights_ok sentiment_service statements g)
        as (i & recs & Hi & _ & Hrecs & Htot).
      destruct (generate_insights lower sentiment_service statements g) as [r g1].
      cbn [fst] in Hi. subst r.
      destruct (truthy include_metadata).
      * unfold bind, ret.
        destruct (analyze_statements lower sentiment_service statements g1) as [rs' g2].
        unfold append_recommendation. rewrite Hrecs. cbn [fst].
        eexists. split; [reflexivity|exact Htot].
      * unfold ret. cbn [fst]. exists i. split; [reflexivity|exact Htot].
Qed.

(** X13: without [include_metadata] (absent or false) the bulk
    endpoint is the insight endpoint: same response, same use of the
    random generator. *)
Theorem bulk_without_metadata_is_insight
  (statements : list string) (include_metadata : option bool) (g : rng) :
  truthy include_metadata = false ->
  bulk_analysis lower {| BulkStatementRequest.statements := statements;
                         BulkStatementRequest.include_metadata := include_metadata |} g
  = insight_summary lower {| StatementRequest.statements := statements |} g.
Proof.
  intros Hmd. unfold bulk_analysis, insight_summary.
  cbn [BulkStatementRequest.statements BulkStatementRequest.include_metadata
       StatementRequest.statements].
  destruct statements as [|s0 rest]; [reflexivity|].
  rewrite Hmd. unfold bind, ret.
  destruct (generate_insights lower sentiment_service (s0 :: rest) g) as [[i|e] g1];
    reflexivity.
Qed.

(** X14: with [include_metadata] the bulk endpoint analyses every
    statement twice: on a non-empty list the insight endpoint
    advances the random generator by the number [N] of NEUTRAL
    statements and the bulk endpoint by [N + N]. *)
Theorem bulk_metadata_analyses_twice (statements : list string) (g : rng) :
  statements <> [] ->
  let N := count_label NEUTRAL
             (fst (analyze_statements lower sentiment_service statements g)) in
  snd (insight_summary lower {| StatementRequest.statements := statements |} g)
  = {| draws := draws g; cursor := cursor g + N |}
  /\ snd (bulk_analysis lower
            {| BulkStatementRequest.statements := statements;
               BulkStatementRequest.include_metadata := Some true |} g)
     = {| draws := draws g; cursor := cursor g + (N + N) |}.
Proof.
  intros Hne N. destruct statements as [|s0 rest]; [congruence|].
  set (statements := s0 :: rest) in *.
  assert (Hgi : snd (generate_insights lower sentiment_service statements g)
                = {| draws := draws g; cursor := cursor g + N |}).
  { rewrite generate_insights_eq. cbn [snd].
    apply (analyze_statements_generator lower sentiment_service statements g). }
  split; [exact Hgi|].
  unfold bulk_analysis.
  cbn [BulkStatementRequest.statements BulkStatementRequest.include_metadata truthy].
  unfold statements at 1. cbv beta iota. unfold bind at 1.
  destruct (generate_insights_ok sentiment_service statements g)
    as (i & recs & Hi & _ & _ & _).
  destruct (generate_insights lower sentiment_service statements g) as [r g1].
  cbn [fst snd] in Hi, Hgi. subst r. unfold bind, ret.
  pose proof (analyze_statements_generator lower sentiment_service statements g1) as [Hg2 _].
  destruct (analyze_statements lower sentiment_service statements g1) as [rs' g2] eqn:E.
  cbn [fst snd] in Hg2 |- *. rewrite Hg2. subst g1. cbn [draws cursor].
  f_equal. rewrite <- Nat.add_assoc. f_equal. f_equal.
  change (length (List.filter
                    (fun r => SentimentType_eqb (SentimentResult.sentiment r) NEUTRAL) rs'))
    with (count_label NEUTRAL rs').
  change rs' with (fst (rs', g2)). rewrite <- E.
  apply analyze_statements_sentiments_rng.
Qed.

(** X15: the labels do not depend on the random generator, so the
    summary text, the distribution and the total of an insight are
    the same whatever the generator draws; only the average score and
    the recommendations derived from it can vary. *)
Theorem insight_deterministic_part (statements : list string) (g g' : rng) :
  exists insights insights',
    fst (generate_insights lower sentiment_service statements g) = Ok insights
    /\ fst (generate_insights lower sentiment_service statements g') = Ok insights'
    /\ InsightSummary.summary insights = InsightSummary.summary insights'
    /\ InsightSummary.sentiment_distribution insights
       = InsightSummary.sentiment_distribution insights'
    /\ InsightSummary.total_statements insights
       = InsightSummary.total_statements insights'.
Proof.
  rewrite !generate_insights_eq. cbn [fst].
  set (rs := fst (analyze_statements lower sentiment_service statements g)).
  set (rs' := fst (analyze_statements lower sentiment_service statements g')).
  assert (Hlen : length rs = length rs')
    by (subst rs rs'; rewrite !analyze_statements_length; reflexivity).
  assert (Hcount : forall t, count_label t rs = count_label t rs')
    by (intros t; apply analyze_statements_sentiments_rng).
  assert (Hconf : confident_count rs = confident_count rs')
    by apply analyze_statements_confident_rng.
  destruct rs as [|r0 rs0], rs' as [|r0' rs0']; try discriminate Hlen.
  - eexists _, _. simpl. repeat split.
  - rewrite !generate_nonempty by discriminate.
    eexists _, _. split; [reflexivity|]. split; [reflexivity|].
    cbn [InsightSummary.summary InsightSummary.sentiment_distribution
         InsightSummary.total_statements].
    rewrite !Hcount, Hconf, Hlen. repeat split.
Qed.

End EndpointFacts.

Lemma endpoints_reject_only_empty_witness :
  exists insights,
    fst (insight_summary ascii_lower
           {| StatementRequest.statements := fallback_statements |} constant_rng)
    = Ok insights
    /\ InsightSummary.total_statements insights = 5.
Proof.
  assert (Hne : fallback_statements <> []) by discriminate.
  destruct (endpoints_reject_only_empty ascii_lower fallback_statements None constant_rng)
    as [_ H].
  destruct (H Hne) as (_ & (i & Hi & Ht) & _).
  exists i. split; [exact Hi|exact Ht].
Defined.

Lemma bulk_without_metadata_is_insight_witness :
  bulk_analysis ascii_lower
    {| BulkStatementRequest.statements := fallback_statements;
       BulkStatementRequest.include_metadata := None |} constant_rng
  = insight_summary ascii_lower
      {| StatementRequest.statements := fallback_statements |} constant_rng.
Proof. apply bulk_without_metadata_is_insight. reflexivity. Defined.

Lemma bulk_metadata_analyses_twice_witness :
  cursor (snd (bulk_analysis ascii_lower
                 {| BulkStatementRequest.statements := fallback_statements;
                    BulkStatementRequest.include_metadata := Some true |}
                 constant_rng)) = 2.
Proof.
  assert (Hne : fallback_statements <> []) by discriminate.
  destruct (bulk_metadata_analyses_twice ascii_lower fallback_statements constant_rng Hne)
    as [_ H].
  rewrite H. vm_compute. reflexivity.
Defined.

(** ** More on the aggregator *)

Lemma distribution_of_lookup (pos neg neu : nat) (k : string) :
  distribution_of pos neg neu !! k
  = if String.eqb k "neutral" then Some neu
    else if String.eqb k "negative" then Some neg
    else if String.eqb k "positive" then Some pos
    else None.
Proof.
  unfold distribution_of.
  destruct (String.eqb_spec k "neutral") as [->|H1]; [by simplify_map_eq|].
  destruct (String.eqb_spec k "negative") as [->|H2]; [by simplify_map_eq|].
  destruct (String.eqb_spec k "positive") as [->|H3]; [by simplify_map_eq|].
  rewrite !lookup_insert_ne by congruence. apply lookup_empty.
Qed.

(** X16: on a non-empty list the returned distribution has exactly
    the three label values as keys, each mapped to the number of
    results with that label, a label without results being present
    with [0]; on the empty list the distribution has no key at all. *)
Theorem distribution_keys (rs : list SentimentResult.t) :
  exists insights,
    generate rs = Ok insights
    /\ (rs = [] -> InsightSummary.sentiment_distribution insights = ∅)
    /\ (rs <> [] ->
        (forall t, InsightSummary.sentiment_distribution insights !! value t
                   = Some (count_label t rs))
        /\ (forall k, is_Some (InsightSummary.sentiment_distribution insights !! k)
                      <-> exists t, k = value t)).
Proof.
  destruct rs as [|r rs].
  - eexists. split; [reflexivity|]. split; [reflexivity|congruence].
  - eexists. split; [apply generate_nonempty; discriminate|].
    split; [discriminate|]. intros _.
    cbn [InsightSummary.sentiment_distribution]. split.
    + intros t. rewrite distribution_of_lookup. destruct t; reflexivity.
    + intros k. rewrite distribution_of_lookup. split.
      * destruct (String.eqb_spec k "neutral") as [->|H1]; [exists NEUTRAL; reflexivity|].
        destruct (String.eqb_spec k "negative") as [->|H2]; [exists NEGATIVE; reflexivity|].
        destruct (String.eqb_spec k "positive") as [->|H3]; [exists POSITIVE; reflexivity|].
        intros [x Hx]. discriminate.
      * intros [t ->]. destruct t; simpl; eexists; reflexivity.
Qed.

Lemma count_label_Permutation (t : SentimentType) (rs rs' : list SentimentResult.t) :
  Permutation rs rs' -> count_label t rs = count_label t rs'.
Proof.
  induction 1 as [|x l l' _ IH|x y l|l l' l'' _ IH1 _ IH2].
  - reflexivity.
  - rewrite !count_label_cons, IH. reflexivity.
  - rewrite !count_label_cons. lia.
  - congruence.
Qed.

Lemma confident_count_Permutation (rs rs' : list SentimentResult.t) :
  Permutation rs rs' -> confident_count rs = confident_count rs'.
Proof.
  induction 1 as [|x l l' _ IH|x y l|l l' l'' _ IH1 _ IH2].
  - reflexivity.
  - rewrite !confident_count_cons, IH. reflexivity.
  - rewrite !confident_count_cons. lia.
  - congruence.
Qed.

(** X17: the summary text, the distribution and the total do not
    depend on the order of the results. *)
Theorem generate_order_independent_part (rs rs' : list SentimentResult.t) :
  Permutation rs rs' ->
  exists insights insights',
    generate rs = Ok insights
    /\ generate rs' = Ok insights'
    /\ InsightSummary.summary insights = InsightSummary.summary insights'
    /\ InsightSummary.sentiment_distribution insights
       = InsightSummary.sentiment_distribution insights'
    /\ InsightSummary.total_statements insights
       = InsightSummary.total_statements insights'.
Proof.
  intros HP.
  pose proof (Permutation_length HP) as Hlen.
  pose proof (fun t => count_label_Permutation t _ _ HP) as Hcount.
  pose proof (confident_count_Permutation _ _ HP) as Hconf.
  destruct rs as [|r0 rs0], rs' as [|r0' rs0']; try discriminate Hlen.
  - eexists _, _. simpl. repeat split.
  - rewrite !generate_nonempty by discriminate.
    eexists _, _. split; [reflexivity|]. split; [reflexivity|].
    cbn [InsightSummary.summary InsightSummary.sentiment_distribution
         InsightSummary.total_statements].
    rewrite !Hcount, Hconf, Hlen. repeat split.
Qed.

Lemma generate_order_independent_part_witness :
  exists insights insights',
    generate order_batch = Ok insights
    /\ generate reordered_batch = Ok insights'
    /\ InsightSummary.summary insights = InsightSummary.summary insights'.
Proof.
  assert (HP : Permutation order_batch reordered_batch).
  { unfold order_batch, reordered_batch. apply perm_skip, perm_swap. }
  destruct (generate_order_independent_part _ _ HP) as (i & i' & H1 & H2 & H3 & _).
  exists i, i'. repeat split; assumption.
Defined.

(** X18: the recommendations do depend on the order of the results.
    The scores are summed from left to right in binary64, and the
    critical-action test compares the unrounded mean with [0.4]: the
    scores [0.1, 0.2, 0.9] have mean [0.4000000000000001] in this
    order and [0.39999999999999997] as [0.1, 0.9, 0.2], so only the
    second order issues the critical recommendation, while both
    return the same [average_score] [0.4]. *)
Theorem recommendations_depend_on_order :
  Permutation order_batch reordered_batch
  /\ exists insights insights' recs,
       generate order_batch = Ok insights
       /\ generate reordered_batch = Ok insights'
       /\ InsightSummary.average_score insights = 0.4%float
       /\ InsightSummary.average_score insights' = 0.4%float
       /\ InsightSummary.recommendations insights = Some recs
       /\ InsightSummary.recommendations insights'
          = Some (recs
                    ++ ["Critical: Overall sentiment is very low - immediate action required"]).
Proof.
  split.
  - unfold order_batch, reordered_batch. apply perm_skip, perm_swap.
  - eexists _, _, _. vm_compute. repeat split.
Qed.

(** X19: whatever its arguments, [_generate_recommendations] returns
    at most eight strings and never the same string twice. *)
Theorem recommendations_bounded_distinct
  (pos neg neu total : nat) (avg_score confidence : float) :
  let recs := _generate_recommendations pos neg neu total avg_score confidence in
  length recs <= 8 /\ NoDup recs.
Proof.
  intros recs. subst recs. unfold _generate_recommendations.
  destruct (pos <? neg), (gt (float_of_nat pos) _), (gt (float_of_nat neu) _),
    (lt avg_score 0.4), (gt avg_score 0.7), (lt confidence 0.5);
    (split; [simpl; lia|]);
    apply (bool_decide_unpack _); vm_compute; exact I.
Qed.

(** X20: the summary and the recommendations agree on the negative
    trend: when the negative results are strictly the most numerous
    (the negative-trend summary), the two remediation recommendations
    are issued first; when the positive results are at least as
    numerous as the negative ones, they are not issued at all. *)
Theorem remediation_follows_negative_trend (rs : list SentimentResult.t) :
  rs <> [] ->
  let pos := count_label POSITIVE rs in
  let neg := count_label NEGATIVE rs in
  let neu := count_label NEUTRAL rs in
  let urgent := "Address negative feedback urgently to prevent reputation damage" in
  let initiatives := "Implement customer satisfaction improvement initiatives" in
  exists insights recs,
    generate rs = Ok insights
    /\ InsightSummary.recommendations insights = Some recs
    /\ (neg > pos /\ neg > neu ->
        InsightSummary.summary insights
        = (negative_summary neg (length rs)
             ++ confidence_clause
                  (float_of_nat (confident_count rs) / float_of_nat (length rs))%float)%string
        /\ exists others, recs = urgent :: initiatives :: others)
    /\ (pos >= neg -> ~ List.In urgent recs /\ ~ List.In initiatives recs).
Proof.
  intros Hne pos neg neu urgent initiatives.
  eexists _, _. split; [apply generate_nonempty; exact Hne|].
  cbn [InsightSummary.recommendations InsightSummary.summary].
  split; [reflexivity|]. fold pos neg neu. split.
  - intros [H1 H2].
    destruct (Nat.ltb_spec neg pos); [lia|]. cbn [andb].
    destruct (Nat.ltb_spec pos neg); [|lia].
    destruct (Nat.ltb_spec neu neg); [|lia]. cbn [andb].
    split; [reflexivity|].
    unfold _generate_recommendations.
    destruct (Nat.ltb_spec pos neg); [|lia].
    repeat match goal with
           | |- context [if ?b then _ else _] => destruct b
           end; eexists; reflexivity.
  - intros Hge. unfold _generate_recommendations.
    destruct (Nat.ltb_spec pos neg); [lia|].
    repeat match goal with
           | |- context [if ?b then _ else _] => destruct b
           end; split; simpl; intuition discriminate.
Qed.

Lemma remediation_follows_negative_trend_witness :
  (exists insights others,
     generate order_batch = Ok insights
     /\ InsightSummary.summary insights
        = "Concerning negative sentiment trend (2/3, 66.7%). Significant issues require immediate attention. Analysis confidence: 100.0% of statements analyzed with high confidence."
     /\ InsightSummary.recommendations insights
        = Some ("Address negative feedback urgently to prevent reputation damage"
                  :: "Implement customer satisfaction improvement initiatives"
                  :: others))
  /\ (exists insights recs,
        generate three_two_batch = Ok insights
        /\ InsightSummary.recommendations insights = Some recs
        /\ ~ List.In "Address negative feedback urgently to prevent reputation damage" recs
        /\ ~ List.In "Implement customer satisfaction improvement initiatives" recs).
Proof.
  split.
  - assert (Hne : order_batch <> []) by discriminate.
    destruct (remediation_follows_negative_trend order_batch Hne)
      as (i & recs & Hg & Hr & Hneg & _).
    destruct Hneg as [Hsum [others Ho]]; [vm_compute; lia|].
    exists i, others. split; [exact Hg|]. split.
    + rewrite Hsum. vm_compute. reflexivity.
    + rewrite Hr, Ho. reflexivity.
  - assert (Hne : three_two_batch <> []) by discriminate.
    destruct (remediation_follows_negative_trend three_two_batch Hne)
      as (i & recs & Hg & Hr & _ & Hpos).
    destruct Hpos as [H1 H2]; [vm_compute; lia|].
    exists i, recs. repeat split; assumption.
Defined.

(** ** The statement repository *)

Lemma collect_statements_Forall2 (items values : list json) :
  Forall2 (fun item v => json_subscript item "statement" = Some v) items values ->
  collect_statements items = Some values.
Proof.
  induction 1 as [|item v items values Hv _ IH]; simpl; [reflexivity|].
  rewrite Hv, IH. reflexivity.
Qed.

Lemma collect_statements_Exists (items : list json) :
  Exists (fun item => json_subscript item "statement" = None) items ->
  collect_statements items = None.
Proof.
  induction 1 as [item items Hv|item items _ IH]; simpl.
  - rewrite Hv. reflexivity.
  - destruct (json_subscript item "statement"); [|reflexivity].
    rewrite IH. reflexivity.
Qed.

(** X21: when the data file parses to an object whose
    ["influencer_statements"] member is a list of objects that all
    have a ["statement"] member, [load_statements] returns those
    members, one per record and in the order of the file. *)
Theorem load_statements_well_formed
  (members : list (string * json)) (records values : list json) :
  members_get members "influencer_statements" = Some (JList records) ->
  Forall2 (fun item v => json_subscript item "statement" = Some v) records values ->
  load_statements (FileParsed (JDict members)) = values
  /\ length values = length records.
Proof.
  intros Hm Hr. unfold load_statements, json_get. rewrite Hm. cbn [json_iter].
  rewrite (collect_statements_Forall2 _ _ Hr). split; [reflexivity|].
  symmetry. exact (Forall2_length _ _ _ Hr).
Qed.

Lemma load_statements_well_formed_witness :
  load_statements
    (FileParsed
       (JDict [("influencer_statements",
                JList [statement_record 1 "a" "I love it" "product_review" "t1";
                       statement_record 2 "b" "This is bad" "general" "t2"])]))
  = [JStr "I love it"; JStr "This is bad"].
Proof.
  eapply proj1, load_statements_well_formed.
  - reflexivity.
  - repeat constructor.
Defined.

(** X22: [load_statements] answers with the five fallback statements
    when the file is missing, when it cannot be read or parsed, when
    the parsed value is not an object, when the
    ["influencer_statements"] member cannot be iterated, and when any
    single item lacks a ["statement"] member: one malformed record
    discards every statement of the file. *)
Theorem load_statements_fallback (file : data_file) :
  file = FileMissing
  \/ file = FileUnreadable
  \/ (exists data, file = FileParsed data /\ forall members, data <> JDict members)
  \/ (exists members x,
        file = FileParsed (JDict members)
        /\ members_get members "influencer_statements" = Some x
        /\ json_iter x = None)
  \/ (exists members x items,
        file = FileParsed (JDict members)
        /\ members_get members "influencer_statements" = Some x
        /\ json_iter x = Some items
        /\ Exists (fun item => json_subscript item "statement" = None) items) ->
  load_statements file = map JStr fallback_statements
  /\ length (load_statements file) = 5.
Proof.
  assert (Hfb : length (map JStr fallback_statements) = 5) by reflexivity.
  intros [->|[->|[(data & -> & Hd)|[(members & x & -> & Hm & Hx)
                                   |(members & x & items & -> & Hm & Hx & Hi)]]]];
    unfold load_statements, json_get.
  - split; [reflexivity|exact Hfb].
  - split; [reflexivity|exact Hfb].
  - destruct data; try (split; [reflexivity|exact Hfb]).
    destruct (Hd members eq_refl).
  - rewrite Hm, Hx. split; [reflexivity|exact Hfb].
  - rewrite Hm, Hx, (collect_statements_Exists _ Hi). split; [reflexivity|exact Hfb].
Qed.

Lemma load_statements_fallback_witness :
  load_statements
    (FileParsed
       (JDict [("influencer_statements",
                JList [statement_record 1 "a" "I love it" "product_review" "t1";
                       JDict [("id", JInt 2); ("influencer", JStr "b")]])]))
  = map JStr fallback_statements.
Proof.
  eapply proj1, load_statements_fallback.
  right; right; right; right.
  eexists _, _, _. split; [reflexivity|]. split; [reflexivity|]. split; [reflexivity|].
  apply Exists_cons_tl, Exists_cons_hd. reflexivity.
Defined.

(** X23: an object without the ["influencer_statements"] member, or
    with an empty list, object or string there, yields the empty
    list of statements and not the fallback. *)
Theorem load_statements_empty (members : list (string * json)) :
  members_get members "influencer_statements" = None
  \/ members_get members "influencer_statements" = Some (JList [])
  \/ members_get members "influencer_statements" = Some (JDict [])
  \/ members_get members "influencer_statements" = Some (JStr "") ->
  load_statements (FileParsed (JDict members)) = []
  /\ load_statements (FileParsed (JDict members)) <> map JStr fallback_statements.
Proof.
  intros [H|[H|[H|H]]]; unfold load_statements, json_get; rewrite H;
    (split; [reflexivity|discriminate]).
Qed.

Lemma load_statements_empty_witness :
  load_statements (FileParsed (JDict [("version", JInt 1)])) = [].
Proof. eapply proj1, load_statements_empty. left. reflexivity. Defined.
